(** * json-api: the request pipeline, its query dispatcher and its hook invoker

    A shallow embedding of

    - [src/steps/run-query.ts]            (module [RunQuery]),
    - [src/steps/trigger-hook.js] and its two sibling versions
                                          (module [TriggerHook]),
    - [build/src/steps/pre-query/label-to-ids.js] and the API controller
      ([APIController.handle], [responseFromExternalError], [pickStatus])
                                          (module [Controller]),

    followed by the properties of the specification that concern them.

    JavaScript values are a small inductive type, promises are their three
    observable states (fulfilled, rejected, never settled), and the
    generator that [co] drives in [handle] is a state-and-exception monad
    over the request, the response and a log of the collaborator calls. *)

From Stdlib Require Import ZArith Ascii String List Lia.
From stdpp Require Import base option list strings pretty gmap.
Import ListNotations.

Set Warnings "-register-all".

Local Open Scope string_scope.
Local Open Scope Z_scope.

(** ** JavaScript values, calls and promises *)

Module Js.

Inductive JsVal : Type :=
| JUndefined
| JNull
| JBool (b : bool)
| JNum (n : Z)
| JStr (s : string)
| JArr (items : list JsVal)
| JObj (props : list (string * JsVal)).

(** A number as [Number(x)] yields it: an integer or [NaN]. *)
Inductive JsNumber : Type :=
| Num (n : Z)
| NaN.

#[global] Instance JsNumber_eq_dec : EqDecision JsNumber.
Proof. solve_decision. Defined.

(** ToBoolean: what [if (x)], [!x] and [x && y] look at. *)
Definition truthy (v : JsVal) : bool :=
  match v with
  | JUndefined | JNull => false
  | JBool b => b
  | JNum n => negb (n =? 0)
  | JStr s => negb (String.eqb s "")
  | JArr _ | JObj _ => true
  end.

(** ToString, as used when a value is a property key ([obj[key]]). *)
Fixpoint toString (v : JsVal) : string :=
  match v with
  | JUndefined => "undefined"
  | JNull => "null"
  | JBool true => "true"
  | JBool false => "false"
  | JNum n => pretty n
  | JStr s => s
  | JArr items =>
      String.concat ","
        (List.map (fun x => match x with
                            | JUndefined | JNull => ""
                            | _ => toString x
                            end) items)
  | JObj _ => "[object Object]"
  end.

Definition isArray (v : JsVal) : bool :=
  match v with JArr _ => true | _ => false end.

(** [String.prototype.toLowerCase] on the ASCII letters. *)
Definition lower_ascii (c : ascii) : ascii :=
  let n := N_of_ascii c in
  if ((65 <=? n) && (n <=? 90))%N then ascii_of_N (n + 32) else c.

Fixpoint toLowerCase (s : string) : string :=
  match s with
  | EmptyString => EmptyString
  | String c r => String (lower_ascii c) (toLowerCase r)
  end.

(** The result of calling a function: it returns or it throws. *)
Inductive Call (E A : Type) : Type :=
| Returns (a : A)
| Throws (e : E).

(** The three states a promise can be observed in.  [Pending] is a promise
    that nobody will ever settle. *)
Inductive Promise (E A : Type) : Type :=
| Fulfilled (a : A)
| Rejected (e : E)
| Pending.

(** What a user function hands back: a plain value or a thenable. *)
Inductive Returned (E A : Type) : Type :=
| Plain (a : A)
| Thenable (p : Promise E A).

Arguments Returns {E A} a.
Arguments Throws {E A} e.
Arguments Fulfilled {E A} a.
Arguments Rejected {E A} e.
Arguments Pending {E A}.
Arguments Plain {E A} a.
Arguments Thenable {E A} p.

(** [obj[key]] / [obj.key] on a value: a [TypeError] on [null] and
    [undefined], [undefined] for a property that is not there. *)
Definition typeError (message : string) : JsVal :=
  JObj [("name", JStr "TypeError"); ("message", JStr message)].

Fixpoint assoc (key : string) (props : list (string * JsVal)) : JsVal :=
  match props with
  | [] => JUndefined
  | (k, v) :: rest => if String.eqb k key then v else assoc key rest
  end.

Definition getProp (v : JsVal) (key : string) : Call JsVal JsVal :=
  match v with
  | JUndefined | JNull =>
      Throws (typeError ("Cannot read property '" +:+ key +:+ "'"))
  | JObj props => Returns (assoc key props)
  | _ => Returns JUndefined
  end.

(** [Promise.resolve(x)] and [Q(x)]: adopt a thenable, wrap a value. *)
Definition promise_resolve {E A} (x : Returned E A) : Promise E A :=
  match x with
  | Plain a => Fulfilled a
  | Thenable p => p
  end.

End Js.

Import Js.

(** ** src/steps/run-query.ts *)

Module RunQuery.

(** The six exported query classes; [OtherQuery] is any other subclass of
    [Query], which [dispatchQuery] answers with "Unexpected query type." *)
Inductive QueryKind : Type :=
| CreateQuery
| FindQuery
| DeleteQuery
| UpdateQuery
| AddToRelationshipQuery
| RemoveFromRelationshipQuery
| OtherQuery.

Record Criteria : Type := mkCriteria {
  where_ : JsVal;
  sort : JsVal;
  limit : option Z;
  offset : option Z
}.

(** What a [WithCriteriaQuery] adds to a [Query]. *)
Record CriteriaPart : Type := mkCriteriaPart {
  criteria : Criteria;
  ignoreLimitMax : bool
}.

(** Modelled from the spec: the query classes (under types/Query) are not part of
    the sources at hand.  A query is "a tagged variant ... each carrying type,
    optional id, optional criteria (filter/sort/limit/offset/fields), and a
    flag to bypass the server's maximum-limit policy";
    [query instanceof WithCriteriaQuery] is [withCriteria q <> None]. *)
Record Query : Type := mkQuery {
  kind : QueryKind;
  type : string;
  id : JsVal;
  withCriteria : option CriteriaPart
}.

(** The getter [query.limit] of a [WithCriteriaQuery]. *)
Definition limit_of (q : Query) : option Z :=
  match withCriteria q with
  | Some cp => limit (criteria cp)
  | None => None
  end.

(** Modelled from the spec: [withLimit] is a method of the absent class
    [WithCriteriaQuery]; "the query is rewritten to carry that default". *)
Definition withLimit (q : Query) (n : Z) : Query :=
  match withCriteria q with
  | Some cp =>
      mkQuery (kind q) (type q) (id q)
        (Some (mkCriteriaPart
                 (mkCriteria (where_ (criteria cp)) (sort (criteria cp))
                             (Some n) (offset (criteria cp)))
                 (ignoreLimitMax cp)))
  | None => q
  end.

(** What [runQuery] can throw or be rejected with. *)
Inductive Failure : Type :=
| InvalidQueryParamValue (detail : string) (source_parameter : string)
| UnexpectedQueryType
| TypeError (message : string)
| AdapterFailure (reason : JsVal).

Definition Method : Type := Query -> Call Failure (Returned Failure JsVal).

Record Adapter : Type := mkAdapter {
  create : option Method;
  find : option Method;
  delete : option Method;
  update : option Method;
  addToRelationship : option Method;
  removeFromRelationship : option Method
}.

Record Pagination : Type := mkPagination {
  defaultPageSize : option Z;
  maxPageSize : option Z
}.

Record ResourceTypeRegistry : Type := mkRegistry {
  pagination : string -> Pagination;
  dbAdapter : string -> option Adapter
}.

(** One invocation of an adapter operation, with the query it received. *)
Definition AdapterCall : Type := (QueryKind * Query)%type.

Definition enforceMaxLimit (registry : ResourceTypeRegistry) (q : Query)
    (cp : CriteriaPart) : Call Failure unit :=
  match maxPageSize (pagination registry (type q)), limit (criteria cp) with
  | Some maxPageSize, Some requested =>
      if negb (ignoreLimitMax cp) && (requested >? maxPageSize)
      then Throws (InvalidQueryParamValue
                     "Must use a smaller limit per page." "page[limit]")
      else Returns tt
  | _, _ => Returns tt
  end.

Definition applyDefaultLimit (registry : ResourceTypeRegistry) (q : Query)
    : Query :=
  match limit_of q, defaultPageSize (pagination registry (type q)) with
  | None, Some defaultPageSize => withLimit q defaultPageSize
  | _, _ => q
  end.

(** [(query instanceof K && adapter.k) || ...]: the operation of the query's
    own class, if the adapter has it.  The adapter is only dereferenced when
    an [instanceof] test succeeds. *)
Definition method_of (adapter : Adapter) (k : QueryKind) : option Method :=
  match k with
  | CreateQuery => create adapter
  | FindQuery => find adapter
  | DeleteQuery => delete adapter
  | UpdateQuery => update adapter
  | AddToRelationshipQuery => addToRelationship adapter
  | RemoveFromRelationshipQuery => removeFromRelationship adapter
  | OtherQuery => None
  end.

Definition dispatchQuery (adapter : option Adapter) (q : Query)
    : list AdapterCall * Call Failure (Promise Failure JsVal) :=
  match kind q, adapter with
  | OtherQuery, _ => ([], Throws UnexpectedQueryType)
  | _, None => ([], Throws (TypeError "Cannot read properties of null"))
  | k, Some a =>
      match method_of a k with
      | None => ([], Throws UnexpectedQueryType)
      | Some method =>
          ([(k, q)],
           match method q with
           | Returns r => Returns (promise_resolve r)
           | Throws e => Throws e
           end)
      end
  end.

Definition runQuery (registry : ResourceTypeRegistry) (query : Query)
    : list AdapterCall * Call Failure (Promise Failure JsVal) :=
  match withCriteria query with
  | Some cp =>
      match enforceMaxLimit registry query cp with
      | Throws e => ([], Throws e)
      | Returns _ =>
          let finalizedQuery := applyDefaultLimit registry query in
          dispatchQuery (dbAdapter registry (type finalizedQuery))
                        finalizedQuery
      end
  | None => dispatchQuery (dbAdapter registry (type query)) query
  end.

(** The invariant of the specification, as stated: no query reaches the
    adapter with a limit above [maxPageSize] unless it carries
    [ignoreLimitMax], wherever the limit came from. *)
Definition dispatched_limit_within_max : Prop :=
  forall (registry : ResourceTypeRegistry) (q : Query)
         (k : QueryKind) (q' : Query) (cp' : CriteriaPart) (maxSize l : Z),
    In (k, q') (fst (runQuery registry q)) ->
    withCriteria q' = Some cp' ->
    ignoreLimitMax cp' = false ->
    maxPageSize (pagination registry (type q')) = Some maxSize ->
    limit (criteria cp') = Some l ->
    l <= maxSize.

End RunQuery.

(** ** src/steps/trigger-hook.js

    Three copies of the hook invoker are in the sources: the current one,
    which reads the type off the resource, and an earlier one (also in its
    compiled form) that is handed the type as its first argument. *)

Module TriggerHook.

(** A hook: [(resource, frameworkReq, frameworkRes) -> any]. *)
Abbreviation HookFn :=
  (JsVal -> JsVal -> JsVal -> Call JsVal (Returned JsVal JsVal)).

(** The registry as [registry[hook](type)] sees it: a property per hook
    name, each an accessor from a resource type to the registered function
    ([None] for [undefined] or any other falsy value). *)
Abbreviation Registry := (gmap string (JsVal -> option HookFn)).

(** The earlier version and its compiled copy:
    [function (type, resource, hook, registry, frameworkReq, frameworkRes)]. *)
Definition triggerHookFor (type resource : JsVal) (hook : string)
    (registry : Registry) (frameworkReq frameworkRes : JsVal)
    : Call JsVal (Promise JsVal JsVal) :=
  match registry !! hook with
  | None => Throws (typeError "registry[hook] is not a function")
  | Some accessor =>
      match accessor type with
      | None => Returns (Fulfilled (JArr []))
      | Some fn =>
          match fn resource frameworkReq frameworkRes with
          | Throws e => Throws e
          | Returns r => Returns (promise_resolve r)
          end
      end
  end.

(** The current version:
    [function (resource, hook, registry, frameworkReq, frameworkRes)]. *)
Definition triggerHook (resource : JsVal) (hook : string)
    (registry : Registry) (frameworkReq frameworkRes : JsVal)
    : Call JsVal (Promise JsVal JsVal) :=
  match getProp resource "type" with
  | Throws e => Throws e
  | Returns type =>
      triggerHookFor type resource hook registry frameworkReq frameworkRes
  end.

End TriggerHook.

(** ** The API controller and label resolution *)

Module Controller.

(** An [APIError] as the controller reads it; [status] is the number that
    [Number(err.status)] yields. *)
Record APIError : Type := mkAPIError {
  status : JsNumber;
  code : option string;
  title : option string;
  detail : option string
}.

(** Anything a step can throw or reject with: one value or an array. *)
Inductive ErrorValue : Type :=
| AnAPIError (e : APIError)
| AnyValue (v : JsVal).

Inductive Thrown : Type :=
| Single (e : ErrorValue)
| Several (es : list ErrorValue).

Record Resource : Type := mkResource {
  rtype : string;
  rid : JsVal;
  rattrs : JsVal
}.

(** [new Resource(type, id)]. *)
Definition new_Resource (type : string) (id : JsVal) : Resource :=
  mkResource type id JUndefined.

(** A response's primary data: not yet set, [null], one resource or a
    collection. *)
Inductive Primary : Type :=
| PUndefined
| PNull
| PResource (r : Resource)
| PCollection (rs : list Resource).

(** [new Collection()]. *)
Definition new_Collection : Primary := PCollection [].

Inductive DocumentData : Type :=
| DocErrors (errors : list APIError)
| DocPrimary (primary : Primary).

(** [new Document(primaryOrErrors, included, meta, urlTemplates, reqURI)].
    A response body is the document it is rendered from; the rendering
    itself ([Document.get]) is outside the sources. *)
Record Document : Type := mkDocument {
  primaryOrErrors : DocumentData;
  doc_included : Primary;
  doc_meta : JsVal;
  doc_urlTemplates : JsVal;
  doc_reqURI : JsVal
}.

Module Request.
Record t : Type := mk {
  method : string;
  type : string;
  idOrIds : JsVal;
  allowLabel : bool;
  hasBody : bool;
  body : JsVal;
  aboutRelationship : bool;
  accepts : JsVal;
  uri : JsVal;
  primary : Primary
}.

Definition with_primary (p : Primary) (r : t) : t :=
  mk (method r) (type r) (idOrIds r) (allowLabel r) (hasBody r) (body r)
     (aboutRelationship r) (accepts r) (uri r) p.

Definition with_idOrIds (ids : JsVal) (r : t) : t :=
  mk (method r) (type r) ids (allowLabel r) (hasBody r) (body r)
     (aboutRelationship r) (accepts r) (uri r) (primary r).
End Request.

Module Response.
Record t : Type := mk {
  contentType : option string;
  headers : gmap string string;
  status : option JsNumber;
  primary : Primary;
  included : Primary;
  errors : list APIError;
  body : option Document
}.

Definition with_contentType (c : string) (r : t) : t :=
  mk (Some c) (headers r) (status r) (primary r) (included r) (errors r)
     (body r).

Definition with_header (k v : string) (r : t) : t :=
  mk (contentType r) (<[k := v]> (headers r)) (status r) (primary r)
     (included r) (errors r) (body r).

Definition with_status (s : option JsNumber) (r : t) : t :=
  mk (contentType r) (headers r) s (primary r) (included r) (errors r)
     (body r).

Definition with_primary (p : Primary) (r : t) : t :=
  mk (contentType r) (headers r) (status r) p (included r) (errors r)
     (body r).

Definition with_included (p : Primary) (r : t) : t :=
  mk (contentType r) (headers r) (status r) (primary r) p (errors r)
     (body r).

Definition with_errors (es : list APIError) (r : t) : t :=
  mk (contentType r) (headers r) (status r) (primary r) (included r) es
     (body r).

Definition with_body (d : Document) (r : t) : t :=
  mk (contentType r) (headers r) (status r) (primary r) (included r)
     (errors r) (Some d).
End Response.

(** Modelled from the spec: the class behind [new Response()]
    (types/HTTP/Response) is not part of the sources at hand.  [handle]
    relies on a fresh response having an (empty) header map to write into, an
    (empty) error list to [concat] onto and an [undefined] primary; the
    other fields start unset. *)
Definition new_Response : Response.t :=
  Response.mk None ∅ None PUndefined PUndefined [] None.

(** The backend adapter and the registry, as label resolution and the
    controller use them. *)
Record Adapter : Type := mkAdapter {
  getModelName : string -> Call Thrown string;
  getModel : string -> Call Thrown JsVal
}.

(** A label mapper: [(model, frameworkReq) -> ids | promise of ids]. *)
Abbreviation LabelMapper :=
  (JsVal -> JsVal -> Call Thrown (Returned Thrown JsVal)).

Record Registry : Type := mkRegistry {
  hasType : string -> bool;
  urlTemplates : JsVal;
  adapter : string -> option Adapter;
  labelMappers : string -> option (gmap string LabelMapper)
}.

(** [Q(x).then(resolve)]: [resolve] is the only handler, so a rejection of
    [x] reaches neither [resolve] nor [reject] and the promise under
    construction is left unsettled. *)
Definition then_resolve {A} (p : Promise Thrown A) : Promise Thrown A :=
  match p with
  | Fulfilled v => Fulfilled v
  | Rejected _ => Pending
  | Pending => Pending
  end.

(** build/src/steps/pre-query/label-to-ids.js.  The body runs inside
    [Q.Promise], which turns whatever it throws into a rejection. *)
Definition labelToIds (type : string) (labelOrId : JsVal)
    (registry : Registry) (frameworkReq : JsVal) : Promise Thrown JsVal :=
  match adapter registry type with
  | None =>
      Rejected (Single (AnyValue (typeError "Cannot read property 'getModel'")))
  | Some adapter =>
      match getModelName adapter type with
      | Throws e => Rejected e
      | Returns name =>
          match getModel adapter name with
          | Throws e => Rejected e
          | Returns model =>
              match labelMappers registry type
                    ≫= (fun mappers => mappers !! toString labelOrId) with
              | Some labelMapper =>
                  match labelMapper model frameworkReq with
                  | Throws e => Rejected e
                  | Returns r => then_resolve (promise_resolve r)
                  end
              | None => Fulfilled labelOrId
              end
          end
      end
  end.

(** Returns the status code that best represents a set of error statuses:
    [errStatuses[0]], which is [undefined] for an empty array. *)
Definition pickStatus (errStatuses : list JsNumber) : option JsNumber :=
  head errStatuses.

(** [Array.isArray(errors) ? errors : [errors]]. *)
Definition toArray (errors : Thrown) : list ErrorValue :=
  match errors with
  | Several es => es
  | Single e => [e]
  end.

(** The steps the controller imports.  Their modules are not part of the
    sources at hand, so they are parameters; each returns the promise that
    [co] waits for.  The four query steps are handed the response object and
    so return it as they leave it, whether or not they succeed. *)
Record Steps : Type := mkSteps {
  checkMethod : Request.t -> Promise Thrown unit;
  checkBodyExistence : Request.t -> Promise Thrown unit;
  negotiateContentType : JsVal -> list string -> Promise Thrown string;
  validateContentType : Request.t -> list string -> Promise Thrown unit;
  validateRequestDocument : JsVal -> Promise Thrown unit;
  parseRequestPrimary : JsVal -> bool -> Promise Thrown Primary;
  validateRequestResources :
    string -> Primary -> Registry -> Promise Thrown unit;
  applyTransform :
    Primary -> string -> Registry -> JsVal -> JsVal -> Promise Thrown Primary;
  doGET : Request.t -> Response.t -> Registry
          -> Response.t * Promise Thrown unit;
  doPOST : Request.t -> Response.t -> Registry
           -> Response.t * Promise Thrown unit;
  doPATCH : Request.t -> Response.t -> Registry
            -> Response.t * Promise Thrown unit;
  doDELETE : Request.t -> Response.t -> Registry
             -> Response.t * Promise Thrown unit;
  fromError : ErrorValue -> APIError
}.

Definition supportedExt : list string := [].

Definition jsonApiType : string := "application/vnd.api+json".

(** *** The generator that [co] drives

    A computation reads and writes the request and the response, logs each
    call to a collaborator, and ends by returning, by throwing, or by
    waiting on a promise that never settles. *)

Inductive Event : Type :=
| EvCheckMethod
| EvCheckBodyExistence
| EvNegotiateContentType
| EvValidateContentType
| EvValidateRequestDocument
| EvParseRequestPrimary
| EvValidateRequestResources
| EvApplyTransform (hook : string) (toTransform : Primary)
| EvLabelToIds (labelOrId : JsVal)
| EvDoQuery (method : string).

Record State : Type := mkState {
  request : Request.t;
  response : Response.t;
  log : list Event
}.

Inductive Outcome (A : Type) : Type :=
| Done (a : A)
| Raise (errors : Thrown)
| Stall.

Arguments Done {A} a.
Arguments Raise {A} errors.
Arguments Stall {A}.

Definition Gen (A : Type) : Type := State -> Outcome A * State.

#[global] Instance Gen_ret : MRet Gen := fun A a st => (Done a, st).

#[global] Instance Gen_bind : MBind Gen := fun A B k c st =>
  match c st with
  | (Done a, st') => k a st'
  | (Raise e, st') => (Raise e, st')
  | (Stall, st') => (Stall, st')
  end.

Definition throw {A} (e : Thrown) : Gen A := fun st => (Raise e, st).

(** [try { body } catch (errors) { handler }]. *)
Definition try_catch (body : Gen unit) (handler : Thrown -> Gen unit)
    : Gen unit := fun st =>
  match body st with
  | (Raise e, st') => handler e st'
  | other => other
  end.

Definition settle {A} (p : Promise Thrown A) : Outcome A :=
  match p with
  | Fulfilled a => Done a
  | Rejected e => Raise e
  | Pending => Stall
  end.

(** [yield p]: log the call that made [p] and wait for it. *)
Definition yield {A} (ev : Event) (p : Promise Thrown A) : Gen A :=
  fun st =>
    (settle p, mkState (request st) (response st) (log st ++ [ev])).

(** [yield doX(request, response, registry)]: the step may have written to
    the response by the time its promise settles. *)
Definition yieldQuery (verb : string)
    (step : Request.t -> Response.t -> Response.t * Promise Thrown unit)
    : Gen unit := fun st =>
  let '(response', p) := step (request st) (response st) in
  (settle p, mkState (request st) response' (log st ++ [EvDoQuery verb])).

Definition getRequest : Gen Request.t := fun st => (Done (request st), st).

Definition getResponse : Gen Response.t :=
  fun st => (Done (response st), st).

Definition setRequest (f : Request.t -> Request.t) : Gen unit := fun st =>
  (Done tt, mkState (f (request st)) (response st) (log st)).

Definition setResponse (f : Response.t -> Response.t) : Gen unit :=
  fun st => (Done tt, mkState (request st) (f (response st)) (log st)).

Definition call {A} (c : Call JsVal A) : Gen A :=
  match c with
  | Returns a => mret a
  | Throws e => throw (Single (AnyValue e))
  end.

Definition when (b : bool) (c : Gen unit) : Gen unit :=
  if b then c else mret tt.

Section Handle.

Variable steps : Steps.
Variable registry : Registry.
Variables frameworkReq frameworkRes : JsVal.

(** The body of the [try] in [handle], statement by statement, cut into
    the stages of the pipeline. *)

(** Method and body checks, content negotiation, the [Vary] header and the
    check that the type is registered. *)
Definition validateAndNegotiate : Gen unit :=
  request ← getRequest;
  yield EvCheckMethod (checkMethod steps request);;
  yield EvCheckBodyExistence (checkBodyExistence steps request);;
  contentType ← yield EvNegotiateContentType
    (negotiateContentType steps (Request.accepts request) [jsonApiType]);
  setResponse (Response.with_contentType contentType);;
  setResponse (Response.with_header "vary" "Accept");;
  when (negb (hasType registry (Request.type request)))
    (throw (Single (AnAPIError
       (mkAPIError (Num 404) None
          (Some (Request.type request +:+ " is not a valid type."))
          None)))).

(** If the request has a body, validate it and parse its resources. *)
Definition parseBody : Gen unit :=
  request ← getRequest;
  when (Request.hasBody request)
    (yield EvValidateContentType
       (validateContentType steps request supportedExt);;
     yield EvValidateRequestDocument
       (validateRequestDocument steps (Request.body request));;
     data ← call (getProp (Request.body request) "data");
     parsedPrimary ← yield EvParseRequestPrimary
       (parseRequestPrimary steps data (Request.aboutRelationship request));
     when (negb (Request.aboutRelationship request))
       (yield EvValidateRequestResources
          (validateRequestResources steps (Request.type request)
             parsedPrimary registry));;
     transformed ← yield (EvApplyTransform "beforeSave" parsedPrimary)
       (applyTransform steps parsedPrimary "beforeSave" registry
          frameworkReq frameworkRes);
     setRequest (Request.with_primary transformed)).

(** [mappedLabel === null || mappedLabel === undefined || mappedIsEmptyArray] *)
Definition mapsToNothing (mappedLabel : JsVal) : bool :=
  let mappedIsEmptyArray :=
    match mappedLabel with
    | JArr items => (length items =? 0)%nat
    | _ => false
    end in
  match mappedLabel with
  | JNull | JUndefined => true
  | _ => mappedIsEmptyArray
  end.

(** Map label to idOrIds, if applicable. *)
Definition resolveLabel : Gen unit :=
  request ← getRequest;
  when (truthy (Request.idOrIds request) && Request.allowLabel request)
    (mappedLabel ← yield (EvLabelToIds (Request.idOrIds request))
       (labelToIds (Request.type request) (Request.idOrIds request)
          registry frameworkReq);
     setRequest (Request.with_idOrIds mappedLabel);;
     when (mapsToNothing mappedLabel)
       (setResponse (Response.with_primary
          (if truthy mappedLabel then new_Collection else PNull)))).

(** [if (request.method === "delete") { ... }] *)
Definition beforeDelete : Gen unit :=
  request ← getRequest;
  when (String.eqb (Request.method request) "delete")
    (let toTransform :=
       match Request.idOrIds request with
       | JArr ids =>
           PCollection (List.map (new_Resource (Request.type request)) ids)
       | JStr id => PResource (new_Resource (Request.type request) (JStr id))
       | _ => PUndefined
       end in
     yield (EvApplyTransform "beforeDelete" toTransform)
       (applyTransform steps toTransform "beforeDelete" registry
          frameworkReq frameworkRes);;
     mret tt).

(** Actually fulfill the request, unless the primary resources are already
    populated. *)
Definition dispatch : Gen unit :=
  request ← getRequest;
  response ← getResponse;
  when (match Response.primary response with
        | PUndefined => true
        | _ => false
        end)
    (if String.eqb (Request.method request) "get" then
       yieldQuery "get" (fun req res => doGET steps req res registry)
     else if String.eqb (Request.method request) "post" then
       yieldQuery "post" (fun req res => doPOST steps req res registry)
     else if String.eqb (Request.method request) "patch" then
       yieldQuery "patch" (fun req res => doPATCH steps req res registry)
     else if String.eqb (Request.method request) "delete" then
       yieldQuery "delete" (fun req res => doDELETE steps req res registry)
     else mret tt).

Definition tryBlock : Gen unit :=
  validateAndNegotiate;;
  parseBody;;
  resolveLabel;;
  beforeDelete;;
  dispatch.

(** The [catch (errors)] block. *)
Definition catchBlock (errors : Thrown) : Gen unit :=
  let errorsArr := toArray errors in
  let apiErrors := List.map (fromError steps) errorsArr in
  response ← getResponse;
  when (negb (bool_decide
                (Response.contentType response = Some "application/json")))
    (setResponse (Response.with_contentType jsonApiType));;
  setResponse (fun response =>
    Response.with_errors (Response.errors response ++ apiErrors) response).

(** [if (response.errors.length) { ...; return response; }] *)
Definition errorBranch (response : Response.t) : Gen Response.t :=
  setResponse (Response.with_status
    (pickStatus (List.map status (Response.errors response))));;
  setResponse (Response.with_body
    (mkDocument (DocErrors (Response.errors response))
       PUndefined JUndefined JUndefined JUndefined));;
  getResponse.

(** The render transforms and the success body. *)
Definition renderBranch (response : Response.t) : Gen Response.t :=
  primary ← yield (EvApplyTransform "beforeRender"
                     (Response.primary response))
    (applyTransform steps (Response.primary response) "beforeRender"
       registry frameworkReq frameworkRes);
  setResponse (Response.with_primary primary);;
  response ← getResponse;
  included ← yield (EvApplyTransform "beforeRender"
                      (Response.included response))
    (applyTransform steps (Response.included response) "beforeRender"
       registry frameworkReq frameworkRes);
  setResponse (Response.with_included included);;
  response ← getResponse;
  request ← getRequest;
  when (negb (bool_decide (Response.status response = Some (Num 204))))
    (setResponse (Response.with_body
       (mkDocument (DocPrimary (Response.primary response))
          (Response.included response) JUndefined
          (urlTemplates registry) (Request.uri request))));;
  getResponse.

(** What follows the [try]/[catch]. *)
Definition afterTry : Gen Response.t :=
  response ← getResponse;
  if negb (length (Response.errors response) =? 0)%nat
  then errorBranch response
  else renderBranch response.

(** The state the [try]/[catch] leaves behind, from a fresh response. *)
Definition initial (request : Request.t) : State :=
  mkState request new_Response [].

Definition runTry (request : Request.t) : Outcome unit * State :=
  tryBlock (initial request).

(** [handle(request, frameworkReq, frameworkRes)]: how the promise that
    [co] returns settles, and the collaborator calls made on the way. *)
Definition handle (request : Request.t) : Outcome Response.t * list Event :=
  let '(outcome, st) :=
    (try_catch tryBlock catchBlock ≫= fun _ => afterTry)
      (initial request) in
  (outcome, log st).

(** [APIController.responseFromExternalError(errors, requestAccepts)]. *)
Definition responseFromExternalError (errors : Thrown)
    (requestAccepts : JsVal) : Promise Thrown Response.t :=
  let response := new_Response in
  let response :=
    Response.with_errors (List.map (fromError steps) (toArray errors))
      response in
  let response :=
    Response.with_status
      (pickStatus (List.map status (Response.errors response))) response in
  let response :=
    Response.with_body
      (mkDocument (DocErrors (Response.errors response))
         PUndefined JUndefined JUndefined JUndefined) response in
  match negotiateContentType steps requestAccepts [jsonApiType] with
  | Fulfilled contentType =>
      Fulfilled
        (Response.with_contentType
           (if String.eqb (toLowerCase contentType) "application/json"
            then contentType else jsonApiType) response)
  | Rejected _ => Fulfilled (Response.with_contentType jsonApiType response)
  | Pending => Pending
  end.

(** What content negotiation chose for this request, if [handle] got as far
    as a settled negotiation. *)
Definition negotiated (request : Request.t) : option string :=
  match checkMethod steps request, checkBodyExistence steps request with
  | Fulfilled _, Fulfilled _ =>
      match negotiateContentType steps (Request.accepts request)
              [jsonApiType] with
      | Fulfilled contentType => Some contentType
      | _ => None
      end
  | _, _ => None
  end.

End Handle.

(** *** Vocabulary for the properties below *)

(** [new Document(response.errors)] *)
Definition errorDocument (errors : list APIError) : Document :=
  mkDocument (DocErrors errors) PUndefined JUndefined JUndefined JUndefined.

(** [new Document(response.primary, response.included, undefined,
    registry.urlTemplates(), request.uri)] *)
Definition successDocument (registry : Registry) (request : Request.t)
    (response : Response.t) : Document :=
  mkDocument (DocPrimary (Response.primary response))
    (Response.included response) JUndefined (urlTemplates registry)
    (Request.uri request).

Definition isRender (ev : Event) : Prop :=
  exists toTransform, ev = EvApplyTransform "beforeRender" toTransform.

Definition isQuery (ev : Event) : Prop :=
  exists verb, ev = EvDoQuery verb.

Definition isLabel (ev : Event) : Prop :=
  exists labelOrId, ev = EvLabelToIds labelOrId.

(** Neither a query nor a label resolution. *)
Definition quiet (ev : Event) : Prop := ~ isQuery ev /\ ~ isLabel ev.

(** The fields of the request that label resolution and dispatch read. *)
Definition labelFields (q : Request.t) : string * string * JsVal * bool :=
  (Request.method q, Request.type q, Request.idOrIds q, Request.allowLabel q).

(** A query step that leaves the negotiated content type and the error list
    of the response as it found them: failures are reported by rejecting,
    and the orchestrator is the one place where they are put on the
    response. *)
Definition keepsNegotiationAndErrors
    (step : Request.t -> Response.t -> Registry
            -> Response.t * Promise Thrown unit) : Prop :=
  forall request response registry,
    Response.contentType (fst (step request response registry))
      = Response.contentType response
    /\ Response.errors (fst (step request response registry))
      = Response.errors response.

Definition querySteps (P : (Request.t -> Response.t -> Registry
                            -> Response.t * Promise Thrown unit) -> Prop)
    (steps : Steps) : Prop :=
  P (doGET steps) /\ P (doPOST steps) /\ P (doPATCH steps)
  /\ P (doDELETE steps).

(** How far a computation can move the state: it keeps what [vq] shows of
    the request and what [vr] shows of the response, and appends to the log
    only events that satisfy [P]. *)
Definition evolves {Xq Xr : Type} (P : Event -> Prop)
    (vq : Request.t -> Xq) (vr : Response.t -> Xr) (st st' : State) : Prop :=
  vq (request st') = vq (request st)
  /\ vr (response st') = vr (response st)
  /\ exists evs, log st' = (log st ++ evs)%list /\ Forall P evs.

Definition respects {Xq Xr : Type} (P : Event -> Prop)
    (vq : Request.t -> Xq) (vr : Response.t -> Xr) {A} (c : Gen A) : Prop :=
  forall st, evolves P vq vr st (snd (c st)).

(** A query step that leaves one aspect [f] of the response as it found
    it. *)
Definition keeps {X : Type} (f : Response.t -> X)
    (step : Request.t -> Response.t -> Registry
            -> Response.t * Promise Thrown unit) : Prop :=
  forall request response registry,
    f (fst (step request response registry)) = f response.

(** The calls of the body stage. *)
Definition isParse (ev : Event) : Prop :=
  ev = EvValidateContentType \/ ev = EvValidateRequestDocument
  \/ ev = EvParseRequestPrimary \/ ev = EvValidateRequestResources
  \/ exists toTransform, ev = EvApplyTransform "beforeSave" toTransform.

Definition isBeforeDelete (ev : Event) : Prop :=
  exists toTransform, ev = EvApplyTransform "beforeDelete" toTransform.

(** The arity of a request, as [handle] reads it with
    [Array.isArray(request.idOrIds)]: a request addresses a collection when
    its ids are an array, and a single resource otherwise.  After label
    resolution the ids of the request are what the label mapped to. *)
Definition isMultiResource (q : Request.t) : bool :=
  isArray (Request.idOrIds q).

(** The four methods that [handle] has a query step for. *)
Definition hasQueryStep (method : string) : Prop :=
  method = "get" \/ method = "post" \/ method = "patch"
  \/ method = "delete".

(** [respects], for the states whose request satisfies [Q]; [Q] looks at
    the request through [vq], which the computation keeps. *)
Definition respectsGiven {Xq Xr : Type} (Q : Xq -> Prop)
    (P : Event -> Prop) (vq : Request.t -> Xq) (vr : Response.t -> Xr)
    {A} (c : Gen A) : Prop :=
  forall st, Q (vq (request st)) -> evolves P vq vr st (snd (c st)).

End Controller.

(** ** Concrete registries, queries and collaborators

    The registry of test/unit/steps/run-query.ts and a few requests, used to
    run the definitions above. *)

Module Fixtures.

Import RunQuery.

Definition answer (v : JsVal) : Method := fun _ => Returns (Plain v).

(** An adapter whose [find] answers with the limit it was asked for. *)
Definition echoLimit : Method := fun q =>
  Returns (Plain (match limit_of q with
                  | Some n => JNum n
                  | None => JUndefined
                  end)).

Definition testAdapter : Adapter :=
  mkAdapter (Some (answer JNull)) (Some echoLimit) (Some (answer JNull))
            (Some (answer JNull)) (Some (answer JNull)) (Some (answer JNull)).

(** [schools: { pagination: { defaultPageSize: 2, maxPageSize: 4 } }] *)
Definition schoolsRegistry : ResourceTypeRegistry :=
  mkRegistry (fun _ => mkPagination (Some 2) (Some 4))
             (fun _ => Some testAdapter).

(** A registry whose default page size is larger than its maximum. *)
Definition wideDefaultRegistry : ResourceTypeRegistry :=
  mkRegistry (fun _ => mkPagination (Some 10) (Some 4))
             (fun _ => Some testAdapter).

Definition findSchools (limit : option Z) (ignoreLimitMax : bool) : Query :=
  mkQuery FindQuery "schools" JUndefined
    (Some (mkCriteriaPart (mkCriteria JUndefined JUndefined limit None)
                          ignoreLimitMax)).

(** A query of a class that [dispatchQuery] does not know. *)
Definition customQuery : Query :=
  mkQuery OtherQuery "schools" JUndefined None.

End Fixtures.

Module Scenarios.

Import Controller.

Definition apiError (status : Z) (title : string) : APIError :=
  mkAPIError (Num status) None (Some title) None.

(** A conversion in the spirit of [APIError.fromError]: API errors pass,
    anything else becomes a 500. *)
Definition toAPIError (e : ErrorValue) : APIError :=
  match e with
  | AnAPIError a => a
  | AnyValue _ => apiError 500 "An unknown error occurred"
  end.

Definition supportedMethod (m : string) : bool :=
  String.eqb m "get" || String.eqb m "post" || String.eqb m "patch"
  || String.eqb m "delete".

(** Collaborators that accept the four methods, negotiate JSON:API unless
    the client asks for plain JSON (and fail on [text/html]), accept every
    document, transform nothing and answer every query. *)
Definition plainSteps : Steps :=
  mkSteps
    (fun req => if supportedMethod (Request.method req) then Fulfilled tt
                else Rejected (Single (AnAPIError
                                 (apiError 405 "Method not supported"))))
    (fun _ => Fulfilled tt)
    (fun accepts _ =>
       match accepts with
       | JStr "application/json" => Fulfilled "application/json"
       | JStr "text/html" =>
           Rejected (Single (AnAPIError (apiError 406 "Not Acceptable")))
       | _ => Fulfilled jsonApiType
       end)
    (fun _ _ => Fulfilled tt)
    (fun _ => Fulfilled tt)
    (fun _ _ => Fulfilled PNull)
    (fun _ _ _ => Fulfilled tt)
    (fun toTransform _ _ _ _ => Fulfilled toTransform)
    (fun _ res _ => (Response.with_primary (PCollection []) res, Fulfilled tt))
    (fun req res _ =>
       (Response.with_status (Some (Num 201))
          (Response.with_primary (Request.primary req) res), Fulfilled tt))
    (fun req res _ =>
       (Response.with_primary (Request.primary req) res, Fulfilled tt))
    (fun _ res _ =>
       (Response.with_status (Some (Num 204))
          (Response.with_primary PNull res), Fulfilled tt))
    toAPIError.

Definition mongoose : Adapter :=
  mkAdapter (fun type => Returns type) (fun _ => Returns (JObj [])).

(** Label mappers of the [schools] type: one that finds nothing, one that
    finds no document at all, one that throws and one whose promise is
    rejected. *)
Definition nobody : LabelMapper := fun _ _ => Returns (Plain (JArr [])).

Definition nothing : LabelMapper := fun _ _ =>
  Returns (Thenable (Fulfilled JNull)).

Definition throwing : LabelMapper := fun _ _ =>
  Throws (Single (AnAPIError (apiError 500 "mapper threw"))).

Definition rejecting : LabelMapper := fun _ _ =>
  Returns (Thenable (Rejected
    (Single (AnAPIError (apiError 500 "mapper rejected"))))).

Definition schools : Registry :=
  mkRegistry (fun type => String.eqb type "schools") JUndefined
    (fun _ => Some mongoose)
    (fun _ => Some ({[ "nobody" := nobody; "nothing" := nothing;
                       "throwing" := throwing; "rejecting" := rejecting ]}
                    : gmap string LabelMapper)).

Definition makeRequest (method type : string) (idOrIds : JsVal)
    (allowLabel : bool) (accepts : string) : Request.t :=
  Request.mk method type idOrIds allowLabel false JUndefined false
    (JStr accepts) (JStr "/schools") PUndefined.

(** [GET /teachers/1], a type that is not registered, asking for plain
    JSON; and what [handle] answers. *)
Definition unknownType : Request.t :=
  makeRequest "get" "teachers" (JStr "1") false "application/json".

Definition notFound : Response.t :=
  Eval vm_compute in
    match fst (handle plainSteps schools JNull JNull unknownType) with
    | Done r => r
    | _ => new_Response
    end.

(** [DELETE /schools/nobody], where the label [nobody] maps to no id. *)
Definition deleteNobody : Request.t :=
  makeRequest "delete" "schools" (JStr "nobody") true "*/*".

(** [GET /schools/1], an id and not a label. *)
Definition getSchool : Request.t :=
  makeRequest "get" "schools" (JStr "1") false "*/*".

(** [PUT /schools/1]: a method the pipeline does not support. *)
Definition putSchool : Request.t :=
  makeRequest "put" "schools" (JStr "1") false "*/*".

Definition methodNotSupported : Thrown :=
  Single (AnAPIError (apiError 405 "Method not supported")).

(** The same collaborators, with a [beforeRender] transform that fails. *)
Definition renderFailure : Thrown :=
  Single (AnyValue (JStr "render failed")).

Definition failingRender : Steps :=
  mkSteps (checkMethod plainSteps) (checkBodyExistence plainSteps)
    (negotiateContentType plainSteps) (validateContentType plainSteps)
    (validateRequestDocument plainSteps) (parseRequestPrimary plainSteps)
    (validateRequestResources plainSteps)
    (fun toTransform hook _ _ _ =>
       if String.eqb hook "beforeRender" then Rejected renderFailure
       else Fulfilled toTransform)
    (doGET plainSteps) (doPOST plainSteps) (doPATCH plainSteps)
    (doDELETE plainSteps) (fromError plainSteps).

(** [DELETE /schools/1], and [PATCH /schools/1/relationships/...] with a
    body. *)
Definition deleteSchool : Request.t :=
  makeRequest "delete" "schools" (JStr "1") false "*/*".

Definition patchRelationship : Request.t :=
  Request.mk "patch" "schools" (JStr "1") false true
    (JObj [("data", JArr [])]) true (JStr "*/*") (JStr "/schools")
    PUndefined.

(** What [handle] answers to [GET /schools/1] and to [DELETE /schools/1]. *)
Definition found : Response.t :=
  Eval vm_compute in
    match fst (handle plainSteps schools JNull JNull getSchool) with
    | Done r => r
    | _ => new_Response
    end.

Definition deleted : Response.t :=
  Eval vm_compute in
    match fst (handle plainSteps schools JNull JNull deleteSchool) with
    | Done r => r
    | _ => new_Response
    end.

(** A hook registry in which only [schools] has a [beforeRender] hook. *)
Definition stamp : TriggerHook.HookFn := fun resource _ _ =>
  Returns (Thenable (Fulfilled resource)).

Definition hooks : TriggerHook.Registry :=
  {[ "beforeRender" :=
       fun type => match type with
                   | JStr "schools" => Some stamp
                   | _ => None
                   end ]}.

Definition teacher : JsVal :=
  JObj [("type", JStr "teachers"); ("id", JStr "7")].

End Scenarios.

(** ** Properties of [runQuery] *)

Section RunQueryFacts.

Import RunQuery.

Variable registry : ResourceTypeRegistry.

Lemma withLimit_type (q : Query) (n : Z) : type (withLimit q n) = type q.
Proof. unfold withLimit. destruct (withCriteria q); reflexivity. Qed.

Lemma withLimit_kind (q : Query) (n : Z) : kind (withLimit q n) = kind q.
Proof. unfold withLimit. destruct (withCriteria q); reflexivity. Qed.

Lemma applyDefaultLimit_type (q : Query) :
  type (applyDefaultLimit registry q) = type q.
Proof.
  unfold applyDefaultLimit.
  destruct (limit_of q), (defaultPageSize (pagination registry (type q)));
    auto using withLimit_type.
Qed.

Lemma applyDefaultLimit_kind (q : Query) :
  kind (applyDefaultLimit registry q) = kind q.
Proof.
  unfold applyDefaultLimit.
  destruct (limit_of q), (defaultPageSize (pagination registry (type q)));
    auto using withLimit_kind.
Qed.

(** With an adapter that has the operation of the query's class, dispatching
    is one call of that operation. *)
Lemma dispatchQuery_calls (a : Adapter) (m : Method) (q : Query) :
  method_of a (kind q) = Some m ->
  dispatchQuery (Some a) q =
    ([(kind q, q)],
     match m q with
     | Returns r => Returns (promise_resolve r)
     | Throws e => Throws e
     end).
Proof.
  intros Hm. unfold dispatchQuery.
  destruct (kind q) eqn:Hk; simpl in Hm |- *;
    try discriminate; rewrite Hm; reflexivity.
Qed.

(** Whatever the adapter, a dispatch calls it at most once, with the query
    it was given. *)
Lemma dispatchQuery_only (a : option Adapter) (q : Query) (c : AdapterCall) :
  In c (fst (dispatchQuery a q)) -> c = (kind q, q).
Proof.
  unfold dispatchQuery.
  destruct (kind q) eqn:Hk, a as [a|]; simpl; try tauto;
    match goal with
    | |- context [match ?m with Some _ => _ | None => _ end] =>
        destruct m; simpl; intuition congruence
    end.
Qed.

End RunQueryFacts.

Section RunQueryClaims.

Import RunQuery Fixtures.

(** C2. A criteria-carrying query whose requested limit exceeds the
    configured [maxPageSize]: without [ignoreLimitMax], [runQuery] throws
    the invalid-query-parameter error that names ["page[limit]"] and no
    adapter operation is invoked; with [ignoreLimitMax], whatever reaches
    the adapter is the very query that was passed in (so with that exact
    limit), and an adapter that has the operation of the query's class is
    invoked with it exactly once. *)
Theorem C2_max_page_size_enforced
    (registry : ResourceTypeRegistry) (q : Query) (cp : CriteriaPart)
    (maxSize requested : Z) :
  withCriteria q = Some cp ->
  maxPageSize (pagination registry (type q)) = Some maxSize ->
  limit (criteria cp) = Some requested ->
  requested > maxSize ->
  (ignoreLimitMax cp = false ->
     runQuery registry q =
       ([], Throws (InvalidQueryParamValue
                      "Must use a smaller limit per page." "page[limit]")))
  /\
  (ignoreLimitMax cp = true ->
     limit_of q = Some requested
     /\ (forall c : AdapterCall,
           In c (fst (runQuery registry q)) -> c = (kind q, q))
     /\ (forall (a : Adapter) (m : Method),
           dbAdapter registry (type q) = Some a ->
           method_of a (kind q) = Some m ->
           runQuery registry q =
             ([(kind q, q)],
              match m q with
              | Returns r => Returns (promise_resolve r)
              | Throws e => Throws e
              end))).
Proof.
  intros Hcp Hmax Hlim Hgt.
  assert (Hgtb : (requested >? maxSize) = true) by (apply Z.gtb_lt; lia).
  split.
  - intros Hflag. unfold runQuery, enforceMaxLimit.
    rewrite Hcp, Hmax, Hlim, Hflag, Hgtb. reflexivity.
  - intros Hflag.
    assert (Hsame : applyDefaultLimit registry q = q).
    { unfold applyDefaultLimit, limit_of. rewrite Hcp, Hlim. reflexivity. }
    assert (Hrun : runQuery registry q
                   = dispatchQuery (dbAdapter registry (type q)) q).
    { unfold runQuery, enforceMaxLimit.
      rewrite Hcp, Hmax, Hlim, Hflag. simpl. rewrite Hsame. reflexivity. }
    split; [|split].
    + unfold limit_of. rewrite Hcp. assumption.
    + intros c. rewrite Hrun. apply dispatchQuery_only.
    + intros a m Ha Hm. rewrite Hrun, Ha.
      apply dispatchQuery_calls; assumption.
Qed.

(** C3. A criteria-carrying query without a requested limit, under a
    configured [defaultPageSize], reaches the adapter as the query rewritten
    to carry that default; when a limit was requested, or no default is
    configured, [applyDefaultLimit] hands the query back as it is and any
    adapter call receives that same query. *)
Theorem C3_default_page_size_applied
    (registry : ResourceTypeRegistry) (q : Query) (cp : CriteriaPart) :
  withCriteria q = Some cp ->
  (forall d : Z,
     limit (criteria cp) = None ->
     defaultPageSize (pagination registry (type q)) = Some d ->
     limit_of (applyDefaultLimit registry q) = Some d
     /\ forall (a : Adapter) (m : Method),
          dbAdapter registry (type q) = Some a ->
          method_of a (kind q) = Some m ->
          exists q' : Query,
            fst (runQuery registry q) = [(kind q, q')]
            /\ limit_of q' = Some d)
  /\
  (limit (criteria cp) <> None
   \/ defaultPageSize (pagination registry (type q)) = None ->
     applyDefaultLimit registry q = q
     /\ forall c : AdapterCall,
          In c (fst (runQuery registry q)) -> c = (kind q, q)).
Proof.
  intros Hcp. split.
  - intros d Hnone Hdef.
    assert (Hq' : applyDefaultLimit registry q = withLimit q d).
    { unfold applyDefaultLimit, limit_of. rewrite Hcp, Hnone, Hdef.
      reflexivity. }
    assert (Hd : limit_of (withLimit q d) = Some d).
    { unfold limit_of, withLimit. rewrite Hcp. reflexivity. }
    split; [rewrite Hq'; exact Hd|].
    intros a m Ha Hm. exists (withLimit q d). split; [|exact Hd].
    unfold runQuery, enforceMaxLimit. rewrite Hcp, Hnone.
    destruct (maxPageSize (pagination registry (type q)));
      rewrite Hq', withLimit_type, Ha;
      rewrite (dispatchQuery_calls a m (withLimit q d));
      rewrite ?withLimit_kind; auto.
  - intros Hkeep.
    assert (Hsame : applyDefaultLimit registry q = q).
    { unfold applyDefaultLimit, limit_of. rewrite Hcp.
      destruct Hkeep as [Hl | Hd].
      - destruct (limit (criteria cp)); [reflexivity | congruence].
      - rewrite Hd. destruct (limit (criteria cp)); reflexivity. }
    split; [exact Hsame|].
    intros c. unfold runQuery. rewrite Hcp.
    destruct (enforceMaxLimit registry q cp); simpl; [|tauto].
    rewrite Hsame. apply dispatchQuery_only.
Qed.

(** C4, as stated, fails: a find query without a limit, under a registry
    whose default page size (10) is larger than its maximum (4), reaches the
    adapter with limit 10. *)
Lemma C4_default_above_max :
  ~ dispatched_limit_within_max.
Proof.
  intros H.
  specialize (H wideDefaultRegistry (findSchools None false) FindQuery
                (findSchools (Some 10) false)
                (mkCriteriaPart (mkCriteria JUndefined JUndefined (Some 10) None)
                                false)
                4 10).
  simpl in H. assert (10 <= 4) by (apply H; auto). lia.
Qed.

(** C4 (amended). A query that [runQuery] hands to the adapter without
    [ignoreLimitMax] carries a limit within [maxPageSize], or else that
    limit is the configured [defaultPageSize], filled in because none was
    requested: the maximum is checked against the requested limit only. *)
Theorem C4_requested_limit_within_max
    (registry : ResourceTypeRegistry) (q : Query)
    (k : QueryKind) (q' : Query) (cp' : CriteriaPart) (maxSize l : Z) :
  In (k, q') (fst (runQuery registry q)) ->
  withCriteria q' = Some cp' ->
  ignoreLimitMax cp' = false ->
  maxPageSize (pagination registry (type q')) = Some maxSize ->
  limit (criteria cp') = Some l ->
  l <= maxSize
  \/ (limit_of q = None
      /\ defaultPageSize (pagination registry (type q)) = Some l).
Proof.
  intros Hin Hcp' Hflag Hmax Hl.
  unfold runQuery in Hin.
  destruct (withCriteria q) as [cp|] eqn:Hcp.
  - destruct (enforceMaxLimit registry q cp) eqn:He; simpl in Hin; [|tauto].
    apply dispatchQuery_only in Hin. injection Hin as _ Hq'.
    assert (Hty : type q' = type q)
      by (rewrite Hq'; apply applyDefaultLimit_type).
    rewrite Hty in Hmax.
    unfold applyDefaultLimit in Hq'.
    destruct (limit_of q) as [requested|] eqn:Hreq.
    + left. subst q'. unfold limit_of in Hreq. rewrite Hcp in Hreq.
      rewrite Hcp in Hcp'. injection Hcp' as <-.
      unfold enforceMaxLimit in He. rewrite Hmax, Hreq, Hflag in He.
      simpl in He. rewrite Hl in Hreq. injection Hreq as <-.
      destruct (l >? maxSize) eqn:Hcmp; [discriminate|].
      rewrite Z.gtb_ltb in Hcmp. apply Z.ltb_ge in Hcmp. exact Hcmp.
    + destruct (defaultPageSize (pagination registry (type q))) as [d|] eqn:Hd.
      * right. split; [reflexivity|]. f_equal.
        subst q'. unfold withLimit in Hcp'. rewrite Hcp in Hcp'.
        injection Hcp' as <-. simpl in Hl. congruence.
      * subst q'. unfold limit_of in Hreq. rewrite Hcp in Hreq.
        rewrite Hcp in Hcp'. injection Hcp' as <-. congruence.
  - apply dispatchQuery_only in Hin. injection Hin as _ ->.
    congruence.
Qed.

End RunQueryClaims.

(** ** The generator monad: what a computation keeps *)

Section Respects.

Import Controller.

Context {Xq Xr : Type}.
Variable P : Event -> Prop.
Variable vq : Request.t -> Xq.
Variable vr : Response.t -> Xr.

Lemma evolves_refl (st : State) : evolves P vq vr st st.
Proof.
  repeat split. exists []. rewrite app_nil_r. split; [reflexivity|constructor].
Qed.

Lemma evolves_trans (st1 st2 st3 : State) :
  evolves P vq vr st1 st2 -> evolves P vq vr st2 st3 ->
  evolves P vq vr st1 st3.
Proof.
  intros (Hq1 & Hr1 & evs1 & Hl1 & Hp1) (Hq2 & Hr2 & evs2 & Hl2 & Hp2).
  repeat split; [congruence | congruence |].
  exists (evs1 ++ evs2)%list. split.
  - rewrite Hl2, Hl1, app_assoc. reflexivity.
  - apply Forall_app. split; assumption.
Qed.

Lemma respects_mret {A} (a : A) : respects P vq vr (mret a).
Proof. intros st. apply evolves_refl. Qed.

Lemma respects_throw {A} (e : Thrown) : respects P vq vr (@throw A e).
Proof. intros st. apply evolves_refl. Qed.

Lemma respects_bind {A B} (c : Gen A) (k : A -> Gen B) :
  respects P vq vr c -> (forall a, respects P vq vr (k a)) ->
  respects P vq vr (c ≫= k).
Proof.
  intros Hc Hk st. unfold mbind, Gen_bind. specialize (Hc st).
  destruct (c st) as [[a|e|] st']; simpl in *; try exact Hc.
  eapply evolves_trans; [exact Hc | apply Hk].
Qed.

Lemma bind_run {A B} (c : Gen A) (k : A -> Gen B) (st : State) :
  (c ≫= k) st =
    match c st with
    | (Done a, st') => k a st'
    | (Raise e, st') => (Raise e, st')
    | (Stall, st') => (Stall, st')
    end.
Proof. reflexivity. Qed.

Lemma respects_when (b : bool) (c : Gen unit) :
  respects P vq vr c -> respects P vq vr (when b c).
Proof. destruct b; simpl; [auto | intros _; apply respects_mret]. Qed.

Lemma respects_try_catch (body : Gen unit) (handler : Thrown -> Gen unit) :
  respects P vq vr body -> (forall e, respects P vq vr (handler e)) ->
  respects P vq vr (try_catch body handler).
Proof.
  intros Hb Hh st. unfold try_catch. specialize (Hb st).
  destruct (body st) as [[a|e|] st']; simpl in *; try exact Hb.
  eapply evolves_trans; [exact Hb | apply Hh].
Qed.

Lemma respects_getRequest : respects P vq vr getRequest.
Proof. intros st. apply evolves_refl. Qed.

Lemma respects_getResponse : respects P vq vr getResponse.
Proof. intros st. apply evolves_refl. Qed.

Lemma respects_call {A} (c : Call JsVal A) : respects P vq vr (call c).
Proof. destruct c; [apply respects_mret | apply respects_throw]. Qed.

Lemma respects_yield {A} (ev : Event) (p : Promise Thrown A) :
  P ev -> respects P vq vr (yield ev p).
Proof.
  intros Hev st. repeat split. exists [ev]. split; [reflexivity|].
  constructor; [assumption | constructor].
Qed.

Lemma respects_setRequest (f : Request.t -> Request.t) :
  (forall q, vq (f q) = vq q) -> respects P vq vr (setRequest f).
Proof.
  intros Hf st. split; [apply Hf|]. split; [reflexivity|].
  exists []. simpl. rewrite app_nil_r. split; [reflexivity | constructor].
Qed.

Lemma respects_setResponse (f : Response.t -> Response.t) :
  (forall r, vr (f r) = vr r) -> respects P vq vr (setResponse f).
Proof.
  intros Hf st. split; [reflexivity|]. split; [apply Hf|].
  exists []. simpl. rewrite app_nil_r. split; [reflexivity | constructor].
Qed.

Lemma respects_yieldQuery (verb : string)
    (step : Request.t -> Response.t -> Response.t * Promise Thrown unit) :
  P (EvDoQuery verb) -> (forall q r, vr (fst (step q r)) = vr r) ->
  respects P vq vr (yieldQuery verb step).
Proof.
  intros Hev Hstep st. unfold yieldQuery.
  specialize (Hstep (request st) (response st)).
  destruct (step (request st) (response st)) as [response' p]; simpl in *.
  split; [reflexivity|]. split; [assumption|].
  exists [EvDoQuery verb]. split; [reflexivity|].
  constructor; [assumption | constructor].
Qed.

End Respects.

(** Breaks a computation down to its primitive steps. *)
Ltac respects_steps :=
  repeat first
    [ apply respects_bind; [|intros ?]
    | apply respects_when
    | apply respects_mret
    | apply respects_throw
    | apply respects_getRequest
    | apply respects_getResponse
    | apply respects_call
    | apply respects_yield
    | apply respects_setRequest; intros ?
    | apply respects_setResponse; intros ?
    | apply respects_yieldQuery; [|intros ? ?] ].

(** ** Facts about the controller *)

Section ControllerFacts.

Import Controller.

Variable steps : Steps.
Variable registry : Registry.
Variables frameworkReq frameworkRes : JsVal.

Local Abbreviation tryBlock :=
  (tryBlock steps registry frameworkReq frameworkRes).
Local Abbreviation catchBlock := (catchBlock steps).
Local Abbreviation afterTry :=
  (afterTry steps registry frameworkReq frameworkRes).
Local Abbreviation handle := (handle steps registry frameworkReq frameworkRes).

(** The [catch] block always completes, and this is what it leaves. *)
Lemma catchBlock_runs (e : Thrown) (st : State) :
  catchBlock e st =
    (Done tt,
     mkState (request st)
       (Response.with_errors
          (Response.errors (response st)
             ++ List.map (fromError steps) (toArray e))%list
          (if bool_decide
                (Response.contentType (response st) = Some "application/json")
           then response st
           else Response.with_contentType jsonApiType (response st)))
       (log st)).
Proof.
  unfold Controller.catchBlock, mbind, Gen_bind, getResponse, setResponse, when.
  destruct st as [q r l]; simpl.
  destruct (bool_decide (Response.contentType r = Some "application/json"));
    reflexivity.
Qed.

(** So [try]/[catch] as a whole never throws. *)
Lemma try_catch_cases (st : State) :
  (exists st1, tryBlock st = (Done tt, st1)
               /\ try_catch tryBlock catchBlock st = (Done tt, st1))
  \/ (exists e st1, tryBlock st = (Raise e, st1)
                    /\ try_catch tryBlock catchBlock st = catchBlock e st1)
  \/ (exists st1, tryBlock st = (Stall, st1)
                  /\ try_catch tryBlock catchBlock st = (Stall, st1)).
Proof.
  unfold try_catch. destruct (tryBlock st) as [[[]|e|] st1] eqn:Hrun.
  - left. eauto.
  - right. left. eauto.
  - right. right. eauto.
Qed.

(** [handle] resolves exactly when the [try]/[catch] completes and what
    follows it returns. *)
Lemma handle_done (req : Request.t) (r : Response.t) (evs : list Event) :
  handle req = (Done r, evs) ->
  exists st1 st2,
    try_catch tryBlock catchBlock (initial req) = (Done tt, st1)
    /\ afterTry st1 = (Done r, st2)
    /\ evs = log st2.
Proof.
  unfold Controller.handle, mbind, Gen_bind.
  destruct (try_catch tryBlock catchBlock (initial req)) as [[[]|e|] st1];
    try (intros H; discriminate).
  destruct (afterTry st1) as [o st2] eqn:Hafter.
  intros H. injection H as -> <-. eauto.
Qed.

(** The error branch: status from the first error, body from the errors,
    nothing else touched, no collaborator called. *)
Lemma afterTry_errors (st st' : State) (r : Response.t) :
  Response.errors (response st) <> [] ->
  afterTry st = (Done r, st') ->
  r = Response.with_body (errorDocument (Response.errors (response st)))
        (Response.with_status
           (pickStatus (List.map status (Response.errors (response st))))
           (response st))
  /\ log st' = log st.
Proof.
  intros Hne. unfold Controller.afterTry, mbind, Gen_bind, getResponse.
  destruct st as [q resp l]; simpl in *.
  destruct (Response.errors resp) eqn:He; [congruence|]. simpl.
  unfold errorBranch, mbind, Gen_bind, setResponse, getResponse. simpl.
  intros H. injection H as <- <-. rewrite He. split; reflexivity.
Qed.

(** The success branch: two render transforms, then the success body
    unless the status is 204. *)
Lemma afterTry_render (st st' : State) (r : Response.t) :
  Response.errors (response st) = [] ->
  afterTry st = (Done r, st') ->
  Response.errors r = []
  /\ Response.contentType r = Response.contentType (response st)
  /\ Response.headers r = Response.headers (response st)
  /\ Response.status r = Response.status (response st)
  /\ (exists primary included,
        log st' = (log st ++ [EvApplyTransform "beforeRender" primary;
                              EvApplyTransform "beforeRender" included])%list)
  /\ (Response.status r <> Some (Num 204) ->
        Response.body r = Some (successDocument registry (request st) r)).
Proof.
  intros He. unfold Controller.afterTry, mbind, Gen_bind, getResponse.
  destruct st as [q resp l]; simpl in *. rewrite He. simpl.
  unfold renderBranch, mbind, Gen_bind, yield, setResponse, getResponse,
    getRequest, when; simpl.
  destruct (applyTransform steps (Response.primary resp) "beforeRender"
              registry frameworkReq frameworkRes) as [p1| |]; simpl;
    try (intros H; discriminate).
  destruct (applyTransform steps (Response.included resp) "beforeRender"
              registry frameworkReq frameworkRes) as [p2| |]; simpl;
    try (intros H; discriminate).
  destruct (bool_decide (Response.status resp = Some (Num 204))) eqn:Hs;
    simpl; intros H; injection H as <- <-; simpl.
  all: repeat split; try assumption.
  all: try (eexists _, _; rewrite <- app_assoc; reflexivity).
  apply bool_decide_eq_true in Hs. intros Hn. contradiction.
Qed.

(** No statement of the [try] block, nor the [catch], calls a render
    transform or changes the request's URI. *)
Lemma tryBlock_no_render :
  respects (fun ev => ~ isRender ev) Request.uri (fun _ => tt) tryBlock.
Proof.
  unfold Controller.tryBlock, validateAndNegotiate, parseBody, resolveLabel,
    beforeDelete, dispatch.
  respects_steps;
    repeat match goal with
    | |- respects _ _ _ (if ?b then _ else _) => destruct b
    end;
    respects_steps; try reflexivity;
    intros [t Ht]; discriminate.
Qed.

Lemma catchBlock_no_render (e : Thrown) :
  respects (fun ev => ~ isRender ev) Request.uri (fun _ => tt) (catchBlock e).
Proof.
  unfold Controller.catchBlock. respects_steps; reflexivity.
Qed.

Lemma afterTry_no_query :
  respects (fun ev => ~ isQuery ev) (fun _ => tt) (fun _ => tt) afterTry.
Proof.
  unfold Controller.afterTry, errorBranch, renderBranch.
  respects_steps;
    repeat match goal with
    | |- respects _ _ _ (if ?b then _ else _) => destruct b
    end;
    respects_steps; try reflexivity;
    intros [t Ht]; discriminate.
Qed.

(** The log of [handle] is the log of the [try] block followed by calls that
    are not queries. *)
Lemma handle_log (req : Request.t) :
  exists evs,
    snd (handle req) = (log (snd (runTry steps registry frameworkReq
                                    frameworkRes req)) ++ evs)%list
    /\ Forall (fun ev => ~ isQuery ev) evs.
Proof.
  unfold Controller.handle, runTry, mbind, Gen_bind, try_catch.
  destruct (tryBlock (initial req)) as [[[]|e|] st1]; simpl.
  - pose proof (afterTry_no_query st1) as (_ & _ & evs & Hl & Hevs).
    destruct (afterTry st1) as [[r|e|] st2]; simpl in *; eauto.
  - rewrite catchBlock_runs.
    match goal with
    | |- context [afterTry ?st] =>
        pose proof (afterTry_no_query st) as (_ & _ & evs & Hl & Hevs);
        destruct (afterTry st) as [[r|e'|] st2]; simpl in *; eauto
    end.
  - exists []. rewrite app_nil_r. split; [reflexivity | constructor].
Qed.

(** *** Content negotiation and the stages after it *)

(** Where the first stage leaves the content type, from a fresh response:
    at what negotiation chose, if it got that far. *)
Lemma validateAndNegotiate_contentType (req : Request.t) :
  let result := validateAndNegotiate steps registry (initial req) in
  fst result <> Stall ->
  Response.contentType (response (snd result)) = negotiated steps req
  /\ Response.errors (response (snd result)) = [].
Proof.
  unfold validateAndNegotiate, negotiated, mbind, Gen_bind, getRequest, yield,
    setResponse, when, throw. simpl.
  destruct (checkMethod steps req) as [[]| |]; simpl; try tauto.
  destruct (checkBodyExistence steps req) as [[]| |]; simpl; try tauto.
  destruct (negotiateContentType steps (Request.accepts req) [jsonApiType]);
    simpl; try tauto.
  destruct (hasType registry (Request.type req)); simpl; tauto.
Qed.

Lemma later_stages_keep :
  querySteps keepsNegotiationAndErrors steps ->
  respects (fun _ => True) (fun _ => tt)
    (fun r => (Response.contentType r, Response.errors r))
    (parseBody steps registry frameworkReq frameworkRes;;
     resolveLabel registry frameworkReq;;
     beforeDelete steps registry frameworkReq frameworkRes;;
     dispatch steps registry).
Proof.
  intros (Hget & Hpost & Hpatch & Hdelete).
  unfold parseBody, resolveLabel, beforeDelete, dispatch.
  respects_steps;
    repeat match goal with
    | |- respects _ _ _ (if ?b then _ else _) => destruct b
    end;
    respects_steps; try reflexivity; try exact I;
    match goal with
    | |- context [?step steps ?q ?r registry] =>
        first [ destruct (Hget q r registry) as [-> ->]
              | destruct (Hpost q r registry) as [-> ->]
              | destruct (Hpatch q r registry) as [-> ->]
              | destruct (Hdelete q r registry) as [-> ->] ];
        reflexivity
    end.
Qed.

(** With query steps that report failures by rejecting, the [try] block
    ends with no error on the response and the content type at what
    negotiation chose. *)
Lemma tryBlock_contentType (req : Request.t) (o : Outcome unit) (st : State) :
  querySteps keepsNegotiationAndErrors steps ->
  tryBlock (initial req) = (o, st) ->
  o <> Stall ->
  Response.contentType (response st) = negotiated steps req
  /\ Response.errors (response st) = [].
Proof.
  intros Hframe. unfold Controller.tryBlock. rewrite bind_run.
  pose proof (validateAndNegotiate_contentType req) as Hfirst.
  destruct (validateAndNegotiate steps registry (initial req))
    as [[[]|e|] st1]; simpl in Hfirst.
  - destruct Hfirst as [Hct Herr]; [discriminate|].
    pose proof (later_stages_keep Hframe st1) as (_ & Hkeep & _).
    intros Hrun _. rewrite Hrun in Hkeep. simpl in Hkeep.
    injection Hkeep as Hc He. split; congruence.
  - intros H _. injection H as <- <-. apply Hfirst. discriminate.
  - intros H Ho. injection H as <- <-. congruence.
Qed.

(** *** Label resolution *)

Lemma validateAndNegotiate_quiet :
  respects quiet labelFields Response.primary
    (validateAndNegotiate steps registry).
Proof.
  unfold validateAndNegotiate.
  respects_steps; try reflexivity; split; intros [v Hv]; discriminate.
Qed.

Lemma parseBody_quiet :
  respects quiet labelFields Response.primary
    (parseBody steps registry frameworkReq frameworkRes).
Proof.
  unfold parseBody.
  respects_steps; try reflexivity; split; intros [v Hv]; discriminate.
Qed.

Lemma beforeDelete_quiet :
  respects quiet (fun q => q) (fun r => r)
    (beforeDelete steps registry frameworkReq frameworkRes).
Proof.
  unfold beforeDelete. cbv zeta.
  respects_steps; try reflexivity; split; intros [v Hv]; discriminate.
Qed.

(** With the primary resources already populated, nothing is dispatched. *)
Lemma dispatch_skipped (st : State) :
  Response.primary (response st) <> PUndefined ->
  dispatch steps registry st = (Done tt, st).
Proof.
  intros Hp. unfold dispatch, mbind, Gen_bind, getRequest, getResponse, when.
  simpl. destruct (Response.primary (response st)); [congruence| | |];
    reflexivity.
Qed.

(** A label that maps to nothing: the ids are stored on the request and
    the primary resources are set there and then. *)
Lemma resolveLabel_nothing (st : State) (mapped : JsVal) :
  truthy (Request.idOrIds (request st)) = true ->
  Request.allowLabel (request st) = true ->
  labelToIds (Request.type (request st)) (Request.idOrIds (request st))
    registry frameworkReq = Fulfilled mapped ->
  mapped = JNull \/ mapped = JUndefined \/ mapped = JArr [] ->
  resolveLabel registry frameworkReq st =
    (Done tt,
     mkState (Request.with_idOrIds mapped (request st))
       (Response.with_primary
          (if isArray mapped then new_Collection else PNull) (response st))
       (log st ++ [EvLabelToIds (Request.idOrIds (request st))])%list).
Proof.
  intros Hid Hallow Hmap Hempty.
  unfold resolveLabel, mbind, Gen_bind, getRequest, yield, setRequest,
    setResponse, when. simpl.
  rewrite Hid, Hallow, Hmap. simpl.
  destruct Hempty as [-> | [-> | ->]]; reflexivity.
Qed.

(** A mapper that throws rejects the resolution; a mapper whose promise is
    rejected leaves it unsettled. *)
Lemma labelToIds_mapper_throws (type name : string) (labelOrId model : JsVal)
    (a : Adapter) (mappers : gmap string LabelMapper) (mapper : LabelMapper)
    (e : Thrown) :
  adapter registry type = Some a ->
  getModelName a type = Returns name ->
  getModel a name = Returns model ->
  labelMappers registry type = Some mappers ->
  mappers !! toString labelOrId = Some mapper ->
  mapper model frameworkReq = Throws e ->
  labelToIds type labelOrId registry frameworkReq = Rejected e.
Proof.
  intros Ha Hn Hm Hl Hk Hcall. unfold labelToIds.
  rewrite Ha, Hn, Hm, Hl. unfold mbind, option_bind.
  rewrite Hk, Hcall. reflexivity.
Qed.

Lemma labelToIds_mapper_rejects (type name : string) (labelOrId model : JsVal)
    (a : Adapter) (mappers : gmap string LabelMapper) (mapper : LabelMapper)
    (e : Thrown) :
  adapter registry type = Some a ->
  getModelName a type = Returns name ->
  getModel a name = Returns model ->
  labelMappers registry type = Some mappers ->
  mappers !! toString labelOrId = Some mapper ->
  mapper model frameworkReq = Returns (Thenable (Rejected e)) ->
  labelToIds type labelOrId registry frameworkReq = Pending.
Proof.
  intros Ha Hn Hm Hl Hk Hcall. unfold labelToIds.
  rewrite Ha, Hn, Hm, Hl. unfold mbind, option_bind.
  rewrite Hk, Hcall. reflexivity.
Qed.

Lemma quiet_events (evs : list Event) (labelOrId : JsVal) :
  Forall quiet evs ->
  Forall (fun ev => ~ isQuery ev) evs /\ ~ In (EvLabelToIds labelOrId) evs.
Proof.
  intros H. split.
  - eapply Forall_impl; [exact H|]. intros ev [Hq _]. exact Hq.
  - intros Hin. rewrite Forall_forall in H.
    apply list_elem_of_In, H in Hin. destruct Hin as [_ Hl].
    apply Hl. eexists. reflexivity.
Qed.

(** The [try] block on a request whose label maps to nothing. *)
Lemma tryBlock_label_nothing (req : Request.t) (mapped : JsVal)
    (o : Outcome unit) (st : State) :
  truthy (Request.idOrIds req) = true ->
  Request.allowLabel req = true ->
  labelToIds (Request.type req) (Request.idOrIds req) registry frameworkReq
    = Fulfilled mapped ->
  mapped = JNull \/ mapped = JUndefined \/ mapped = JArr [] ->
  tryBlock (initial req) = (o, st) ->
  Forall (fun ev => ~ isQuery ev) (log st)
  /\ (In (EvLabelToIds (Request.idOrIds req)) (log st) ->
        Response.primary (response st)
          = (if isArray mapped then new_Collection else PNull)
        /\ Request.idOrIds (request st) = mapped).
Proof.
  intros Hid Hallow Hmap Hempty. unfold Controller.tryBlock.
  rewrite bind_run.
  pose proof (validateAndNegotiate_quiet (initial req))
    as (HqA & _ & evsA & HlA & HevsA).
  simpl in HqA, HlA.
  destruct (validateAndNegotiate steps registry (initial req))
    as [[[]|e|] stA]; simpl in HqA, HlA;
    [| intros H; injection H as <- <-; rewrite HlA;
       apply (quiet_events _ (Request.idOrIds req)) in HevsA; tauto ..].
  rewrite bind_run.
  pose proof (parseBody_quiet stA) as (HqB & _ & evsB & HlB & HevsB).
  assert (HevsAB : Forall quiet (evsA ++ evsB))
    by (apply Forall_app; split; assumption).
  destruct (parseBody steps registry frameworkReq frameworkRes stA)
    as [[[]|e|] stB]; simpl in HqB, HlB;
    [| intros H; injection H as <- <-; rewrite HlB, HlA;
       apply (quiet_events _ (Request.idOrIds req)) in HevsAB; tauto ..].
  rewrite HqA in HqB. unfold labelFields in HqB.
  injection HqB as Hmethod Htype Hids Hflag.
  rewrite bind_run, (resolveLabel_nothing stB mapped);
    [| congruence | congruence | rewrite Htype, Hids; exact Hmap | exact Hempty].
  rewrite bind_run.
  match goal with
  | |- context [beforeDelete _ _ _ _ ?stC] =>
      pose proof (beforeDelete_quiet stC) as (HqD & HrD & evsD & HlD & HevsD);
      destruct (beforeDelete steps registry frameworkReq frameworkRes stC)
        as [[[]|e|] stD]
  end; simpl in HqD, HrD, HlD.
  1: rewrite dispatch_skipped
       by (rewrite HrD; simpl; destruct (isArray mapped); discriminate).
  all: intros H; injection H as <- <-.
  all: rewrite HlD, HlB, HlA, HrD, HqD, Hids; simpl.
  all: apply (quiet_events _ (Request.idOrIds req)) in HevsAB as [HAB _].
  all: apply Forall_app in HAB as [HA HB].
  all: apply (quiet_events _ (Request.idOrIds req)) in HevsD as [HD _].
  all: split; [| intros _; split; reflexivity].
  all: repeat (apply Forall_app; split); try assumption.
  all: constructor; [intros [v Hv]; discriminate | constructor].
Qed.

End ControllerFacts.

(** ** The claims about the controller *)

Section ControllerClaims.

Import Controller Scenarios.

(** C1. A response that [handle] completes has errors or a success body,
    not both: with an error on the response at the check that follows the
    [try]/[catch], the body is the document of the error list and no
    [beforeRender] transform has been called; with none, the error list is
    empty, the two [beforeRender] transforms were the last calls made, and
    unless the status is 204 the body is the document built from the
    response's primary and included resources. *)
Theorem C1_errors_xor_success_body
    (steps : Steps) (registry : Registry) (frameworkReq frameworkRes : JsVal)
    (req : Request.t) (r : Response.t) (evs : list Event) :
  handle steps registry frameworkReq frameworkRes req = (Done r, evs) ->
  (Response.errors r <> []
   /\ Response.body r = Some (errorDocument (Response.errors r))
   /\ Forall (fun ev => ~ isRender ev) evs)
  \/
  (Response.errors r = []
   /\ (exists before primary included,
         evs = (before ++ [EvApplyTransform "beforeRender" primary;
                           EvApplyTransform "beforeRender" included])%list)
   /\ (Response.status r <> Some (Num 204) ->
         Response.body r = Some (successDocument registry req r))).
Proof.
  intros Hrun. apply handle_done in Hrun as (st1 & st2 & Htry & Hafter & ->).
  assert (Hkeeps : evolves (fun ev => ~ isRender ev) Request.uri
                     (fun _ => tt) (initial req) st1).
  { pose proof (respects_try_catch _ _ _ _ _
                  (tryBlock_no_render steps registry frameworkReq frameworkRes)
                  (catchBlock_no_render steps) (initial req)) as H.
    rewrite Htry in H. exact H. }
  destruct Hkeeps as (Huri & _ & evs1 & Hlog & Hevs). simpl in Huri, Hlog.
  destruct (Response.errors (response st1)) as [|e es] eqn:Herr.
  - right. apply afterTry_render in Hafter as (He & _ & _ & _ & Hl & Hb);
      [|assumption].
    split; [assumption|]. split.
    + destruct Hl as (p & i & Hl). exists (log st1), p, i. exact Hl.
    + intros Hs. rewrite (Hb Hs). unfold successDocument. rewrite Huri.
      reflexivity.
  - left. apply afterTry_errors in Hafter as [-> Hl]; [|congruence].
    simpl. rewrite Herr. split; [discriminate|]. split; [reflexivity|].
    rewrite Hl, Hlog. exact Hevs.
Qed.

(** C8. With a non-empty error list, the status of the response is the
    status of the first error in the list, in [handle] and in
    [responseFromExternalError] alike. *)
Theorem C8_status_of_first_error
    (steps : Steps) (registry : Registry) (frameworkReq frameworkRes : JsVal)
    (r : Response.t) (e : APIError) (es : list APIError) :
  Response.errors r = e :: es ->
  (forall req evs,
     handle steps registry frameworkReq frameworkRes req = (Done r, evs) ->
     Response.status r = Some (status e))
  /\
  (forall errors requestAccepts,
     responseFromExternalError steps errors requestAccepts = Fulfilled r ->
     Response.status r = Some (status e)).
Proof.
  intros Herr. split.
  - intros req evs Hrun.
    apply handle_done in Hrun as (st1 & st2 & _ & Hafter & _).
    destruct (Response.errors (response st1)) as [|e1 es1] eqn:H1.
    + apply afterTry_render in Hafter as (He & _); [|assumption]. congruence.
    + apply afterTry_errors in Hafter as [-> _]; [|congruence].
      simpl in *. rewrite H1 in *. injection Herr as -> _. reflexivity.
  - intros errors requestAccepts. unfold responseFromExternalError.
    destruct (negotiateContentType steps requestAccepts [jsonApiType]);
      intros H; try discriminate; injection H as <-; simpl in *;
      rewrite Herr; reflexivity.
Qed.

(** C5. A request whose label resolves to [null], [undefined] or an empty
    array.  No query step is ever called, neither in the [try] block nor
    after it.  The label stage, from whatever state it starts in, completes,
    stores the resolved value as the request's ids and sets the primary
    resources of the response there and then: [null] when the request then
    addresses a single resource, an empty collection when it addresses
    several.  And once the stages before it have completed, the [try] block
    does resolve the label and ends with those ids and that primary. *)
Theorem C5_label_mapping_to_nothing
    (steps : Steps) (registry : Registry) (frameworkReq frameworkRes : JsVal)
    (req : Request.t) (mapped : JsVal) :
  truthy (Request.idOrIds req) = true ->
  Request.allowLabel req = true ->
  labelToIds (Request.type req) (Request.idOrIds req) registry frameworkReq
    = Fulfilled mapped ->
  mapped = JNull \/ mapped = JUndefined \/ mapped = JArr [] ->
  Forall (fun ev => ~ isQuery ev)
    (snd (handle steps registry frameworkReq frameworkRes req))
  /\
  (forall st,
     labelFields (request st) = labelFields req ->
     exists st',
       resolveLabel registry frameworkReq st = (Done tt, st')
       /\ Request.idOrIds (request st') = mapped
       /\ Response.primary (response st')
            = (if isMultiResource (request st') then new_Collection
               else PNull)
       /\ log st' = (log st ++ [EvLabelToIds (Request.idOrIds req)])%list)
  /\
  (forall st,
     (validateAndNegotiate steps registry;;
      parseBody steps registry frameworkReq frameworkRes) (initial req)
       = (Done tt, st) ->
     exists o st',
       runTry steps registry frameworkReq frameworkRes req = (o, st')
       /\ In (EvLabelToIds (Request.idOrIds req)) (log st')
       /\ Request.idOrIds (request st') = mapped
       /\ Response.primary (response st')
            = (if isMultiResource (request st') then new_Collection
               else PNull)).
Proof.
  intros Hid Hallow Hmap Hempty.
  assert (Hstage : forall st,
            labelFields (request st) = labelFields req ->
            resolveLabel registry frameworkReq st =
              (Done tt,
               mkState (Request.with_idOrIds mapped (request st))
                 (Response.with_primary
                    (if isArray mapped then new_Collection else PNull)
                    (response st))
                 (log st ++ [EvLabelToIds (Request.idOrIds req)])%list)).
  { intros st Hf. unfold labelFields in Hf.
    injection Hf as _ Htype Hids Hflag.
    rewrite <- Hids.
    apply resolveLabel_nothing;
      [congruence | congruence | rewrite Htype, Hids; exact Hmap
      | exact Hempty]. }
  split; [|split].
  - destruct (handle_log steps registry frameworkReq frameworkRes req)
      as (evs & -> & Hevs).
    apply Forall_app. split; [|exact Hevs].
    unfold runTry.
    destruct (tryBlock steps registry frameworkReq frameworkRes (initial req))
      as [o st] eqn:Hrun.
    eapply tryBlock_label_nothing in Hrun; eauto. apply Hrun.
  - intros st Hf. eexists. split; [apply Hstage; exact Hf|].
    unfold isMultiResource. simpl. auto.
  - intros st Hfront.
    assert (Hf : labelFields (request st) = labelFields req).
    { revert Hfront. rewrite bind_run.
      pose proof (validateAndNegotiate_quiet steps registry (initial req))
        as (HqA & _).
      destruct (validateAndNegotiate steps registry (initial req))
        as [[[]|e|] stA]; try discriminate. simpl in HqA.
      pose proof (parseBody_quiet steps registry frameworkReq frameworkRes
                    stA) as (HqB & _).
      intros Hfront. rewrite Hfront in HqB. simpl in HqB. congruence. }
    assert (Hrest : tryBlock steps registry frameworkReq frameworkRes
                      (initial req)
                    = (resolveLabel registry frameworkReq;;
                       beforeDelete steps registry frameworkReq frameworkRes;;
                       dispatch steps registry) st).
    { unfold tryBlock. revert Hfront. rewrite !bind_run.
      destruct (validateAndNegotiate steps registry (initial req))
        as [[[]|e|] stA]; try discriminate.
      rewrite bind_run. intros ->. reflexivity. }
    unfold runTry. rewrite Hrest, bind_run, (Hstage st Hf), bind_run.
    match goal with
    | |- context [beforeDelete _ _ _ _ ?stC] =>
        pose proof (beforeDelete_quiet steps registry frameworkReq
                      frameworkRes stC) as (HqD & HrD & evsD & HlD & _);
        destruct (beforeDelete steps registry frameworkReq frameworkRes stC)
          as [[[]|e|] stD]
    end; simpl in HqD, HrD, HlD.
    1: rewrite dispatch_skipped
         by (rewrite HrD; simpl; destruct (isArray mapped); discriminate).
    all: eexists _, stD; (split; [reflexivity|]).
    all: unfold isMultiResource; rewrite HlD, HqD, HrD; simpl.
    all: split; [|auto].
    all: apply in_or_app; left; apply in_or_app; right; left; reflexivity.
Qed.

(** C6, at a label mapper that returns a rejected promise.  The resolution
    of the label never settles, so [handle] never completes: there is no
    response, and the [catch] block is never entered. *)
Theorem C6_rejected_mapper_never_settles :
  labelToIds "schools" (JStr "rejecting") schools JNull = Pending
  /\ handle plainSteps schools JNull JNull
       (makeRequest "get" "schools" (JStr "rejecting") true "*/*")
     = (Stall, [EvCheckMethod; EvCheckBodyExistence; EvNegotiateContentType;
                EvLabelToIds (JStr "rejecting")]).
Proof. split; vm_compute; reflexivity. Qed.

(** C7. With query steps that leave the negotiated content type and the
    error list alone, a response that [handle] completes with errors has
    content type [application/json] if negotiation was reached and chose
    exactly that, and the JSON:API media type otherwise.
    [responseFromExternalError] answers with the type negotiation chose if
    that is [application/json], and with the JSON:API media type if
    negotiation chose anything else or found nothing acceptable. *)
Theorem C7_error_content_type
    (steps : Steps) (registry : Registry) (frameworkReq frameworkRes : JsVal) :
  querySteps keepsNegotiationAndErrors steps ->
  (forall req r evs,
     handle steps registry frameworkReq frameworkRes req = (Done r, evs) ->
     Response.errors r <> [] ->
     Response.contentType r =
       Some (if bool_decide (negotiated steps req = Some "application/json")
             then "application/json" else jsonApiType))
  /\
  (forall errors requestAccepts,
     (negotiateContentType steps requestAccepts [jsonApiType]
        = Fulfilled "application/json" ->
      exists r,
        responseFromExternalError steps errors requestAccepts = Fulfilled r
        /\ Response.contentType r = Some "application/json")
     /\ (forall e,
          negotiateContentType steps requestAccepts [jsonApiType]
            = Rejected e ->
          exists r,
            responseFromExternalError steps errors requestAccepts
              = Fulfilled r
            /\ Response.contentType r = Some jsonApiType)
     /\ (forall contentType,
          negotiateContentType steps requestAccepts [jsonApiType]
            = Fulfilled contentType ->
          toLowerCase contentType <> "application/json" ->
          exists r,
            responseFromExternalError steps errors requestAccepts
              = Fulfilled r
            /\ Response.contentType r = Some jsonApiType)).
Proof.
  intros Hframe. split.
  - intros req r evs Hrun Herr.
    apply handle_done in Hrun as (st1 & st2 & Htry & Hafter & _).
    destruct (try_catch_cases steps registry frameworkReq frameworkRes
                (initial req))
      as [(st & Hbody & Hsame) | [(e & st & Hbody & Hsame) | (st & _ & Hsame)]];
      rewrite Hsame in Htry; [| | discriminate].
    + injection Htry as <-.
      apply tryBlock_contentType in Hbody as [_ Hnone];
        [| assumption | discriminate].
      apply afterTry_render in Hafter as (He & _); [|assumption].
      contradiction.
    + apply tryBlock_contentType in Hbody as [Hct Hnone];
        [| assumption | discriminate].
      rewrite catchBlock_runs in Htry. injection Htry as <-.
      destruct (Response.errors (response
                  (mkState (request st)
                     (Response.with_errors
                        (Response.errors (response st)
                           ++ List.map (fromError steps) (toArray e))%list
                        (if bool_decide
                              (Response.contentType (response st)
                                 = Some "application/json")
                         then response st
                         else Response.with_contentType jsonApiType
                                (response st)))
                     (log st)))) eqn:Hcaught.
      * apply afterTry_render in Hafter as (He & _); [|assumption].
        contradiction.
      * apply afterTry_errors in Hafter as [-> _]; [|congruence].
        simpl. rewrite Hct.
        destruct (bool_decide (negotiated steps req = Some "application/json"))
          eqn:Hjson; simpl.
        -- apply bool_decide_eq_true in Hjson. congruence.
        -- reflexivity.
  - intros errors requestAccepts. unfold responseFromExternalError.
    repeat split.
    + intros ->. eexists. split; reflexivity.
    + intros e ->. eexists. split; reflexivity.
    + intros contentType -> Hother. eexists. split; [reflexivity|]. simpl.
      destruct (String.eqb_spec (toLowerCase contentType) "application/json");
        [contradiction | reflexivity].
Qed.

(** C9, at a request with an unsupported method, at a request whose
    [Accept] header cannot be satisfied, and at an external error: each is
    answered with an error response whose header map has no [vary] entry. *)
Theorem C9_vary_absent_from_early_errors :
  (exists r evs,
     handle plainSteps schools JNull JNull
       (makeRequest "put" "schools" (JStr "1") false "*/*") = (Done r, evs)
     /\ Response.errors r <> []
     /\ Response.headers r !! "vary" = None)
  /\ (exists r evs,
        handle plainSteps schools JNull JNull
          (makeRequest "get" "schools" (JStr "1") false "text/html")
          = (Done r, evs)
        /\ Response.errors r <> []
        /\ Response.headers r !! "vary" = None)
  /\ (exists r,
        responseFromExternalError plainSteps (Single (AnyValue JNull))
          (JStr "application/json") = Fulfilled r
        /\ Response.headers r !! "vary" = None).
Proof.
  split; [|split].
  - eexists _, _. split; [vm_compute; reflexivity|].
    split; [discriminate | reflexivity].
  - eexists _, _. split; [vm_compute; reflexivity|].
    split; [discriminate | reflexivity].
  - eexists. split; [vm_compute; reflexivity | reflexivity].
Qed.

End ControllerClaims.

(** ** The hook invoker *)

Section TriggerHookClaims.

Import TriggerHook.

(** C10. Where the registry's accessor for the hook name has no function for
    the resource type, the invoker returns a promise fulfilled with an empty
    array, and does not throw; where it has one, the promise carries what
    the hook produced (its value, or the outcome of the promise it
    returned, a rejection included), and an exception the hook throws leaves
    the invoker as it is.  The current version, which reads the type off the
    resource, and the earlier one agree. *)
Theorem C10_hook_invoker
    (registry : Registry) (hook : string) (accessor : JsVal -> option HookFn)
    (type resource frameworkReq frameworkRes : JsVal) :
  registry !! hook = Some accessor ->
  getProp resource "type" = Returns type ->
  triggerHook resource hook registry frameworkReq frameworkRes
    = triggerHookFor type resource hook registry frameworkReq frameworkRes
  /\ (accessor type = None ->
        triggerHookFor type resource hook registry frameworkReq frameworkRes
          = Returns (Fulfilled (JArr [])))
  /\ (forall fn, accessor type = Some fn ->
        (forall v, fn resource frameworkReq frameworkRes = Returns (Plain v) ->
           triggerHookFor type resource hook registry frameworkReq
             frameworkRes = Returns (Fulfilled v))
        /\ (forall p,
              fn resource frameworkReq frameworkRes = Returns (Thenable p) ->
              triggerHookFor type resource hook registry frameworkReq
                frameworkRes = Returns p)
        /\ (forall e, fn resource frameworkReq frameworkRes = Throws e ->
              triggerHookFor type resource hook registry frameworkReq
                frameworkRes = Throws e)).
Proof.
  intros Hreg Htype. split; [|split].
  - unfold triggerHook. rewrite Htype. reflexivity.
  - intros Hnone. unfold triggerHookFor. rewrite Hreg, Hnone. reflexivity.
  - intros fn Hfn. unfold triggerHookFor. rewrite Hreg, Hfn.
    repeat split; intros x ->; reflexivity.
Qed.

End TriggerHookClaims.

(** ** The theorems at work on the scenarios *)

Section Witnesses.

Import Controller Scenarios.

(** [GET /teachers/1] is answered with the 404 and its error document. *)
Lemma C1_witness :
  Response.errors notFound <> []
  /\ Response.body notFound
      = Some (errorDocument (Response.errors notFound)).
Proof.
  destruct (C1_errors_xor_success_body plainSteps schools JNull JNull
              unknownType notFound
              [EvCheckMethod; EvCheckBodyExistence;
               EvNegotiateContentType])
    as [(Herr & Hbody & _) | (Hnone & _)].
  - vm_compute. reflexivity.
  - split; assumption.
  - vm_compute in Hnone. discriminate.
Defined.

(** The registry of the unit tests, with limit 10 against a maximum of 4. *)
Lemma C2_witness :
  RunQuery.runQuery Fixtures.schoolsRegistry
      (Fixtures.findSchools (Some 10) false)
    = ([], Throws (RunQuery.InvalidQueryParamValue
                     "Must use a smaller limit per page." "page[limit]"))
  /\ fst (RunQuery.runQuery Fixtures.schoolsRegistry
             (Fixtures.findSchools (Some 10) true))
     = [(RunQuery.FindQuery, Fixtures.findSchools (Some 10) true)].
Proof.
  split.
  - apply (C2_max_page_size_enforced Fixtures.schoolsRegistry
             (Fixtures.findSchools (Some 10) false)
             (RunQuery.mkCriteriaPart
                (RunQuery.mkCriteria JUndefined JUndefined (Some 10) None)
                false)
             4 10); [reflexivity | reflexivity | reflexivity | lia
                    | reflexivity].
  - destruct (C2_max_page_size_enforced Fixtures.schoolsRegistry
                (Fixtures.findSchools (Some 10) true)
                (RunQuery.mkCriteriaPart
                   (RunQuery.mkCriteria JUndefined JUndefined (Some 10) None)
                   true)
                4 10 eq_refl eq_refl eq_refl ltac:(lia)) as [_ Hflag].
    destruct (Hflag eq_refl) as (_ & _ & Hcall).
    rewrite (Hcall Fixtures.testAdapter Fixtures.echoLimit eq_refl eq_refl).
    reflexivity.
Defined.

(** A find query without a limit is dispatched with the default, 2. *)
Lemma C3_witness :
  exists q' : RunQuery.Query,
    fst (RunQuery.runQuery Fixtures.schoolsRegistry
           (Fixtures.findSchools None false))
      = [(RunQuery.FindQuery, q')]
    /\ RunQuery.limit_of q' = Some 2.
Proof.
  destruct (C3_default_page_size_applied Fixtures.schoolsRegistry
              (Fixtures.findSchools None false)
              (RunQuery.mkCriteriaPart
                 (RunQuery.mkCriteria JUndefined JUndefined None None) false)
              eq_refl) as [Hdefault _].
  destruct (Hdefault 2 eq_refl eq_refl) as [_ Hcall].
  exact (Hcall Fixtures.testAdapter Fixtures.echoLimit eq_refl eq_refl).
Defined.

(** A requested limit of 3 passes under a maximum of 4. *)
Lemma C4_witness :
  3 <= 4
  \/ (RunQuery.limit_of (Fixtures.findSchools (Some 3) false) = None
      /\ RunQuery.defaultPageSize
           (RunQuery.pagination Fixtures.schoolsRegistry "schools") = Some 3).
Proof.
  apply (C4_requested_limit_within_max Fixtures.schoolsRegistry
           (Fixtures.findSchools (Some 3) false) RunQuery.FindQuery
           (Fixtures.findSchools (Some 3) false)
           (RunQuery.mkCriteriaPart
              (RunQuery.mkCriteria JUndefined JUndefined (Some 3) None) false)
           4 3);
    [left; reflexivity | reflexivity | reflexivity | reflexivity
    | reflexivity].
Defined.

(** [DELETE /schools/nobody] never reaches a query step, and its [try]
    block ends with no ids and an empty collection as primary. *)
Lemma C5_witness :
  Forall (fun ev => ~ isQuery ev)
    (snd (handle plainSteps schools JNull JNull deleteNobody))
  /\ exists o st',
       runTry plainSteps schools JNull JNull deleteNobody = (o, st')
       /\ Request.idOrIds (request st') = JArr []
       /\ Response.primary (response st') = new_Collection.
Proof.
  destruct (C5_label_mapping_to_nothing plainSteps schools JNull JNull
              deleteNobody (JArr []))
    as (Hquery & _ & Hrun);
    [reflexivity | reflexivity | vm_compute; reflexivity
    | right; right; reflexivity |].
  split; [exact Hquery|].
  destruct (Hrun (snd ((validateAndNegotiate plainSteps schools;;
                        parseBody plainSteps schools JNull JNull)
                         (initial deleteNobody))))
    as (o & st' & Hr & _ & Hids & Hprimary);
    [vm_compute; reflexivity|].
  exists o, st'. split; [exact Hr|]. split; [exact Hids|].
  unfold isMultiResource in Hprimary. rewrite Hids in Hprimary.
  exact Hprimary.
Defined.

(** The 404 for [GET /teachers/1] keeps the negotiated [application/json]. *)
Lemma C7_witness :
  Response.contentType notFound = Some "application/json".
Proof.
  apply (proj1 (C7_error_content_type plainSteps schools JNull JNull
                  ltac:(repeat split))
           unknownType notFound
           [EvCheckMethod; EvCheckBodyExistence;
            EvNegotiateContentType]);
    [vm_compute; reflexivity | discriminate].
Defined.

(** The status of the 404 response is that of its only error. *)
Lemma C8_witness :
  Response.status notFound = Some (Num 404).
Proof.
  apply (proj1 (C8_status_of_first_error plainSteps schools JNull JNull
                  notFound
                  (apiError 404 "teachers is not a valid type.") []
                  eq_refl)
           unknownType
           [EvCheckMethod; EvCheckBodyExistence;
            EvNegotiateContentType]).
  vm_compute. reflexivity.
Defined.

(** [teachers] has no [beforeRender] hook: the invoker answers with []. *)
Lemma C10_witness :
  TriggerHook.triggerHook teacher "beforeRender" hooks JNull JNull
    = Returns (Fulfilled (JArr [])).
Proof.
  destruct (C10_hook_invoker hooks "beforeRender"
              (fun type => match type with
                           | JStr "schools" => Some stamp
                           | _ => None
                           end)
              (JStr "teachers") teacher JNull JNull eq_refl eq_refl)
    as (-> & Hnone & _).
  apply Hnone. reflexivity.
Defined.

End Witnesses.

(** ** More about [runQuery] *)

Section RunQueryMore.

Import RunQuery.

Variable registry : ResourceTypeRegistry.

(** What [runQuery] calls when it gets past the limit check. *)
Lemma runQuery_dispatches (q : Query) :
  (forall cp, withCriteria q = Some cp ->
              enforceMaxLimit registry q cp = Returns tt) ->
  runQuery registry q =
    dispatchQuery (dbAdapter registry (type q))
      (match withCriteria q with
       | Some _ => applyDefaultLimit registry q
       | None => q
       end).
Proof.
  intros Hpass. unfold runQuery.
  destruct (withCriteria q) as [cp|] eqn:Hcp; [|reflexivity].
  rewrite (Hpass cp eq_refl), applyDefaultLimit_type. reflexivity.
Qed.

(** Routing: [runQuery] invokes the adapter at most once.  A query that
    gets past the limit check is answered by the adapter's operation for its
    own class and by no other: [create] for a [CreateQuery], [find] for a
    [FindQuery], [delete] for a [DeleteQuery], [update] for an
    [UpdateQuery], [addToRelationship] and [removeFromRelationship] for the
    two relationship queries.  That operation is called once, with the
    finalized query, and its result is the result. *)
Theorem runQuery_routes_by_class (q : Query) :
  (length (fst (runQuery registry q)) <= 1)%nat
  /\ forall (a : Adapter) (m : Method),
       (forall cp, withCriteria q = Some cp ->
                   enforceMaxLimit registry q cp = Returns tt) ->
       dbAdapter registry (type q) = Some a ->
       (kind q = CreateQuery /\ create a = Some m)
       \/ (kind q = FindQuery /\ find a = Some m)
       \/ (kind q = DeleteQuery /\ delete a = Some m)
       \/ (kind q = UpdateQuery /\ update a = Some m)
       \/ (kind q = AddToRelationshipQuery /\ addToRelationship a = Some m)
       \/ (kind q = RemoveFromRelationshipQuery
           /\ removeFromRelationship a = Some m) ->
       let finalizedQuery :=
         match withCriteria q with
         | Some _ => applyDefaultLimit registry q
         | None => q
         end in
       runQuery registry q =
         ([(kind q, finalizedQuery)],
          match m finalizedQuery with
          | Returns r => Returns (promise_resolve r)
          | Throws e => Throws e
          end)
       /\ kind finalizedQuery = kind q
       /\ type finalizedQuery = type q.
Proof.
  split.
  - assert (Hd : forall a q0,
               (length (fst (dispatchQuery a q0)) <= 1)%nat).
    { intros a q0. unfold dispatchQuery.
      destruct (kind q0), a as [a|]; simpl; try lia;
        match goal with
        | |- context [match ?x with Some _ => _ | None => _ end] =>
            destruct x; simpl; lia
        end. }
    unfold runQuery. destruct (withCriteria q) as [cp|]; [|apply Hd].
    destruct (enforceMaxLimit registry q cp); simpl; [apply Hd | lia].
  - intros a m Hpass Ha Hop finalizedQuery.
    assert (Hk : kind finalizedQuery = kind q)
      by (unfold finalizedQuery; destruct (withCriteria q);
          [apply applyDefaultLimit_kind | reflexivity]).
    assert (Ht : type finalizedQuery = type q)
      by (unfold finalizedQuery; destruct (withCriteria q);
          [apply applyDefaultLimit_type | reflexivity]).
    split; [|split; assumption].
    rewrite (runQuery_dispatches q Hpass), Ha.
    fold finalizedQuery. unfold dispatchQuery. rewrite Hk.
    destruct Hop as [(-> & Hm) | [(-> & Hm) | [(-> & Hm) | [(-> & Hm)
                    | [(-> & Hm) | (-> & Hm)]]]]];
      simpl; rewrite Hm; reflexivity.
Qed.

(** The result is the adapter's: when an operation was invoked, what
    [runQuery] returns is [Promise.resolve] of what that operation returned
    for the query it was given, and what the operation throws is thrown. *)
Theorem runQuery_result_is_the_adapters (q : Query) (k : QueryKind)
    (q' : Query) :
  fst (runQuery registry q) = [(k, q')] ->
  exists (a : Adapter) (m : Method),
    dbAdapter registry (type q) = Some a
    /\ method_of a k = Some m
    /\ snd (runQuery registry q) =
         match m q' with
         | Returns (Plain v) => Returns (Fulfilled v)
         | Returns (Thenable p) => Returns p
         | Throws e => Throws e
         end.
Proof.
  assert (Hd : forall a q0,
             fst (dispatchQuery a q0) = [(k, q')] ->
             exists a0 m, a = Some a0 /\ method_of a0 k = Some m
               /\ snd (dispatchQuery a q0) =
                    match m q' with
                    | Returns (Plain v) => Returns (Fulfilled v)
                    | Returns (Thenable p) => Returns p
                    | Throws e => Throws e
                    end).
  { intros a q0. unfold dispatchQuery.
    destruct (kind q0) eqn:Hk, a as [a0|]; simpl; try discriminate;
      match goal with
      | |- context [match ?x with Some _ => _ | None => _ end] =>
          destruct x as [op|] eqn:Hop; simpl; try discriminate
      end;
      intros H; injection H as <- <-; exists a0, op;
      (split; [reflexivity|]); (split; [exact Hop|]);
      destruct (op q0) as [[v|p]|e]; reflexivity. }
  unfold runQuery. destruct (withCriteria q) as [cp|].
  - destruct (enforceMaxLimit registry q cp); simpl; [|discriminate].
    rewrite applyDefaultLimit_type. apply Hd.
  - apply Hd.
Qed.

(** The limit check is the only way [runQuery] fails with the
    invalid-parameter error before any adapter call: it does so exactly for
    a criteria-carrying query without [ignoreLimitMax] whose requested limit
    is above a configured maximum. *)
Theorem runQuery_refuses_exactly_oversized (q : Query)
    (detail parameter : string) :
  runQuery registry q = ([], Throws (InvalidQueryParamValue detail parameter))
  <->
  exists cp maxSize requested,
    withCriteria q = Some cp
    /\ ignoreLimitMax cp = false
    /\ maxPageSize (pagination registry (type q)) = Some maxSize
    /\ limit (criteria cp) = Some requested
    /\ requested > maxSize
    /\ detail = "Must use a smaller limit per page."
    /\ parameter = "page[limit]".
Proof.
  assert (Hd : forall a q0,
             dispatchQuery a q0
               <> ([], Throws (InvalidQueryParamValue detail parameter))).
  { intros a q0. unfold dispatchQuery.
    destruct (kind q0), a as [a0|]; simpl; try discriminate;
      match goal with
      | |- context [match ?m with Some _ => _ | None => _ end] =>
          destruct m; simpl; discriminate
      end. }
  split.
  - unfold runQuery. destruct (withCriteria q) as [cp|] eqn:Hcp;
      [|intros H; apply Hd in H; contradiction].
    unfold enforceMaxLimit.
    destruct (maxPageSize (pagination registry (type q))) as [m|] eqn:Hm;
      [|intros H; apply Hd in H; contradiction].
    destruct (limit (criteria cp)) as [l|] eqn:Hl;
      [|intros H; apply Hd in H; contradiction].
    destruct (ignoreLimitMax cp) eqn:Hf; simpl;
      [intros H; apply Hd in H; contradiction|].
    destruct (l >? m) eqn:Hgt; [|intros H; apply Hd in H; contradiction].
    intros H. injection H as <- <-. exists cp, m, l.
    apply Z.gtb_lt in Hgt. repeat split; auto; lia.
  - intros (cp & m & l & Hcp & Hf & Hm & Hl & Hgt & -> & ->).
    unfold runQuery, enforceMaxLimit. rewrite Hcp, Hm, Hl, Hf.
    assert ((l >? m) = true) as -> by (apply Z.gtb_lt; lia). reflexivity.
Qed.

(** A requested limit that no configured maximum forbids is handed to the
    adapter as it came, whether or not a default page size is configured. *)
Theorem runQuery_allows_limit_within_max (q : Query) (cp : CriteriaPart)
    (requested : Z) (a : Adapter) (m : Method) :
  withCriteria q = Some cp ->
  limit (criteria cp) = Some requested ->
  (forall maxSize,
     maxPageSize (pagination registry (type q)) = Some maxSize ->
     requested <= maxSize) ->
  dbAdapter registry (type q) = Some a ->
  method_of a (kind q) = Some m ->
  fst (runQuery registry q) = [(kind q, q)].
Proof.
  intros Hcp Hl Hmax Ha Hm.
  rewrite runQuery_dispatches.
  - rewrite Hcp, Ha.
    assert (applyDefaultLimit registry q = q) as ->.
    { unfold applyDefaultLimit, limit_of. rewrite Hcp, Hl. reflexivity. }
    rewrite (dispatchQuery_calls a m q Hm). reflexivity.
  - intros cp' Hcp'. rewrite Hcp in Hcp'. injection Hcp' as <-.
    unfold enforceMaxLimit. rewrite Hl.
    destruct (maxPageSize (pagination registry (type q))) as [maxSize|];
      [|reflexivity].
    specialize (Hmax maxSize eq_refl).
    assert ((requested >? maxSize) = false) as ->
      by (rewrite Z.gtb_ltb; apply Z.ltb_ge; lia).
    rewrite andb_false_r. reflexivity.
Qed.

(** A query that gets past the limit check but has no operation to go to:
    for a class of query that [dispatchQuery] does not know, or an adapter
    without the operation, "Unexpected query type." is thrown; for a type
    without adapter, reading the operation off [null] is a [TypeError].  No
    adapter operation is invoked. *)
Theorem runQuery_without_operation (q : Query) :
  (forall cp, withCriteria q = Some cp ->
              enforceMaxLimit registry q cp = Returns tt) ->
  (kind q = OtherQuery ->
   runQuery registry q = ([], Throws UnexpectedQueryType))
  /\ (forall a, dbAdapter registry (type q) = Some a ->
                method_of a (kind q) = None ->
                runQuery registry q = ([], Throws UnexpectedQueryType))
  /\ (kind q <> OtherQuery ->
      dbAdapter registry (type q) = None ->
      runQuery registry q
        = ([], Throws (TypeError "Cannot read properties of null"))).
Proof.
  intros Hpass. rewrite (runQuery_dispatches q Hpass).
  assert (Hk : kind (match withCriteria q with
                     | Some _ => applyDefaultLimit registry q
                     | None => q
                     end) = kind q)
    by (destruct (withCriteria q); [apply applyDefaultLimit_kind|reflexivity]).
  unfold dispatchQuery. rewrite Hk.
  split; [|split].
  - intros ->. reflexivity.
  - intros a -> Hm. destruct (kind q); simpl in Hm |- *;
      try rewrite Hm; reflexivity.
  - intros Hother ->. destruct (kind q); try reflexivity. congruence.
Qed.

(** Under a registry whose default page sizes do not exceed its maximum
    page sizes, the limit invariant holds in full: no query without
    [ignoreLimitMax] reaches the adapter with a limit above the maximum. *)
Theorem runQuery_limit_invariant_for_sane_defaults
    (q : Query) (k : QueryKind) (q' : Query) (cp' : CriteriaPart)
    (maxSize l : Z) :
  (forall ty d m,
     defaultPageSize (pagination registry ty) = Some d ->
     maxPageSize (pagination registry ty) = Some m ->
     d <= m) ->
  In (k, q') (fst (runQuery registry q)) ->
  withCriteria q' = Some cp' ->
  ignoreLimitMax cp' = false ->
  maxPageSize (pagination registry (type q')) = Some maxSize ->
  limit (criteria cp') = Some l ->
  l <= maxSize.
Proof.
  intros Hsane Hin Hcp' Hflag Hmax Hl.
  unfold runQuery in Hin.
  destruct (withCriteria q) as [cp|] eqn:Hcp.
  - destruct (enforceMaxLimit registry q cp) eqn:He; simpl in Hin; [|tauto].
    apply dispatchQuery_only in Hin. injection Hin as _ Hq'.
    assert (Hty : type q' = type q)
      by (rewrite Hq'; apply applyDefaultLimit_type).
    rewrite Hty in Hmax.
    unfold applyDefaultLimit, limit_of in Hq'. rewrite Hcp in Hq'.
    destruct (limit (criteria cp)) as [requested|] eqn:Hreq.
    + subst q'. rewrite Hcp in Hcp'. injection Hcp' as <-.
      unfold enforceMaxLimit in He. rewrite Hmax, Hreq, Hflag in He.
      simpl in He. rewrite Hl in Hreq. injection Hreq as <-.
      destruct (l >? maxSize) eqn:Hcmp; [discriminate|].
      rewrite Z.gtb_ltb in Hcmp. apply Z.ltb_ge in Hcmp. exact Hcmp.
    + destruct (defaultPageSize (pagination registry (type q))) as [d|] eqn:Hd.
      * subst q'. unfold withLimit in Hcp'. rewrite Hcp in Hcp'.
        injection Hcp' as <-. simpl in Hl. injection Hl as <-.
        eapply Hsane; eassumption.
      * subst q'. rewrite Hcp in Hcp'. injection Hcp' as <-. congruence.
  - apply dispatchQuery_only in Hin. injection Hin as _ ->. congruence.
Qed.

End RunQueryMore.

(** ** More about the hook invoker and label resolution *)

Section TriggerHookMore.

Import TriggerHook.

(** A hook name that is not a property of the registry is not "no hook":
    [registry[hook]] is [undefined], calling it throws, and neither version
    of the invoker returns a promise. *)
Theorem triggerHook_unknown_hook_name (registry : Registry) (hook : string) :
  registry !! hook = None ->
  (forall type resource frameworkReq frameworkRes,
     triggerHookFor type resource hook registry frameworkReq frameworkRes
       = Throws (typeError "registry[hook] is not a function"))
  /\ (forall resource frameworkReq frameworkRes,
        exists e,
          triggerHook resource hook registry frameworkReq frameworkRes
            = Throws e).
Proof.
  intros Hnone.
  assert (Hfor : forall type resource frameworkReq frameworkRes,
            triggerHookFor type resource hook registry frameworkReq
              frameworkRes
              = Throws (typeError "registry[hook] is not a function")).
  { intros. unfold triggerHookFor. rewrite Hnone. reflexivity. }
  split; [exact Hfor|].
  intros resource frameworkReq frameworkRes. unfold triggerHook.
  destruct (getProp resource "type") as [type|e]; [|eauto].
  rewrite Hfor. eauto.
Qed.

End TriggerHookMore.

Section LabelToIdsMore.

Import Controller.

Variable registry : Registry.
Variable frameworkReq : JsVal.

(** Looking up the model comes first: without an adapter for the type, or
    when naming or fetching the model throws, the resolution is rejected,
    for a plain id as much as for a label. *)
Theorem labelToIds_needs_the_model (type : string) (labelOrId : JsVal) :
  (adapter registry type = None ->
   exists e, labelToIds type labelOrId registry frameworkReq = Rejected e)
  /\ (forall a e,
        adapter registry type = Some a ->
        getModelName a type = Throws e ->
        labelToIds type labelOrId registry frameworkReq = Rejected e)
  /\ (forall a name e,
        adapter registry type = Some a ->
        getModelName a type = Returns name ->
        getModel a name = Throws e ->
        labelToIds type labelOrId registry frameworkReq = Rejected e).
Proof.
  unfold labelToIds. repeat split.
  - intros ->. eauto.
  - intros a e -> ->. reflexivity.
  - intros a name e -> -> ->. reflexivity.
Qed.

(** With the model at hand, a label that has no mapper (the type has no
    mappers at all, or none under that key) is an id: the resolution is
    fulfilled with the very value that was passed in. *)
Theorem labelToIds_passes_ids_through (type name : string)
    (labelOrId model : JsVal) (a : Adapter) :
  adapter registry type = Some a ->
  getModelName a type = Returns name ->
  getModel a name = Returns model ->
  (labelMappers registry type = None
   \/ exists mappers, labelMappers registry type = Some mappers
                      /\ mappers !! toString labelOrId = None) ->
  labelToIds type labelOrId registry frameworkReq = Fulfilled labelOrId.
Proof.
  intros Ha Hn Hm Hnone. unfold labelToIds. rewrite Ha, Hn, Hm.
  destruct Hnone as [-> | (mappers & -> & Hk)]; unfold mbind, option_bind;
    [reflexivity | rewrite Hk; reflexivity].
Qed.

(** A mapper is called with the model and the framework request, and what
    it returns, directly or as the value of a fulfilled promise, is what
    the label resolves to. *)
Theorem labelToIds_resolves_to_mapped (type name : string)
    (labelOrId model mapped : JsVal) (a : Adapter)
    (mappers : gmap string LabelMapper) (mapper : LabelMapper) :
  adapter registry type = Some a ->
  getModelName a type = Returns name ->
  getModel a name = Returns model ->
  labelMappers registry type = Some mappers ->
  mappers !! toString labelOrId = Some mapper ->
  mapper model frameworkReq = Returns (Plain mapped)
  \/ mapper model frameworkReq = Returns (Thenable (Fulfilled mapped)) ->
  labelToIds type labelOrId registry frameworkReq = Fulfilled mapped.
Proof.
  intros Ha Hn Hm Hl Hk Hcall. unfold labelToIds.
  rewrite Ha, Hn, Hm, Hl. unfold mbind, option_bind. rewrite Hk.
  destruct Hcall as [-> | ->]; reflexivity.
Qed.

(** The resolution stays unsettled exactly when a mapper was found and
    returned a promise that is rejected or never settles: everything else
    fulfils or rejects it. *)
Theorem labelToIds_pending_iff (type : string) (labelOrId : JsVal) :
  labelToIds type labelOrId registry frameworkReq = Pending
  <->
  exists a name model mappers mapper,
    adapter registry type = Some a
    /\ getModelName a type = Returns name
    /\ getModel a name = Returns model
    /\ labelMappers registry type = Some mappers
    /\ mappers !! toString labelOrId = Some mapper
    /\ ((exists e, mapper model frameworkReq = Returns (Thenable (Rejected e)))
        \/ mapper model frameworkReq = Returns (Thenable Pending)).
Proof.
  unfold labelToIds. split.
  - destruct (adapter registry type) as [a|]; [|discriminate].
    destruct (getModelName a type) as [name|] eqn:Hn; [|discriminate].
    destruct (getModel a name) as [model|] eqn:Hm; [|discriminate].
    destruct (labelMappers registry type) as [mappers|];
      unfold mbind, option_bind; [|discriminate].
    destruct (mappers !! toString labelOrId) as [mapper|] eqn:Hk;
      [|discriminate].
    destruct (mapper model frameworkReq) as [[v|[v|e|]]|e] eqn:Hcall;
      simpl; try discriminate; intros _;
      exists a, name, model, mappers, mapper;
      (repeat (split; [reflexivity || assumption|]));
      first [left; eexists; eassumption | right; assumption].
  - intros (a & name & model & mappers & mapper
            & -> & -> & -> & -> & Hk & Hcall).
    unfold mbind, option_bind. rewrite Hk.
    destruct Hcall as [[e ->] | ->]; reflexivity.
Qed.

(** A rejection of the resolution always comes from a synchronous throw:
    of the model lookup or of the mapper itself. *)
Theorem labelToIds_rejected_only_by_throw (type : string)
    (labelOrId : JsVal) (e : Thrown) :
  labelToIds type labelOrId registry frameworkReq = Rejected e ->
  adapter registry type = None
  \/ (exists a, adapter registry type = Some a
                /\ (getModelName a type = Throws e
                    \/ exists name, getModelName a type = Returns name
                         /\ (getModel a name = Throws e
                             \/ exists model mappers mapper,
                                  getModel a name = Returns model
                                  /\ labelMappers registry type = Some mappers
                                  /\ mappers !! toString labelOrId
                                       = Some mapper
                                  /\ mapper model frameworkReq = Throws e))).
Proof.
  unfold labelToIds.
  destruct (adapter registry type) as [a|]; [|auto].
  intros H. right. exists a. split; [reflexivity|].
  destruct (getModelName a type) as [name|e1] eqn:Hn;
    [|injection H as ->; auto].
  right. exists name. split; [reflexivity|].
  destruct (getModel a name) as [model|e1] eqn:Hm;
    [|injection H as ->; auto].
  right.
  destruct (labelMappers registry type) as [mappers|];
    unfold mbind, option_bind in H; [|discriminate].
  destruct (mappers !! toString labelOrId) as [mapper|] eqn:Hk;
    [|discriminate].
  destruct (mapper model frameworkReq) as [[v|[v|e1|]]|e1] eqn:Hcall;
    simpl in H; try discriminate.
  injection H as ->. exists model, mappers, mapper. auto.
Qed.

End LabelToIdsMore.

(** ** More about the controller *)

Section RespectsGiven.

Import Controller.

Context {Xq Xr : Type}.
Variable Q : Xq -> Prop.
Variable P : Event -> Prop.
Variable vq : Request.t -> Xq.
Variable vr : Response.t -> Xr.

Lemma respects_weaken {A} (c : Gen A) :
  respects P vq vr c -> respectsGiven Q P vq vr c.
Proof. intros H st _. apply H. Qed.

Lemma respectsGiven_bind {A B} (c : Gen A) (k : A -> Gen B) :
  respectsGiven Q P vq vr c -> (forall a, respectsGiven Q P vq vr (k a)) ->
  respectsGiven Q P vq vr (c ≫= k).
Proof.
  intros Hc Hk st HQ. rewrite bind_run. specialize (Hc st HQ).
  destruct (c st) as [[a|e|] st']; simpl in *; try exact Hc.
  eapply evolves_trans; [exact Hc | apply Hk].
  destruct Hc as (Hq & _). rewrite Hq. exact HQ.
Qed.

(** [request ← getRequest; k request]: the request read is one that
    satisfies [Q]. *)
Lemma respectsGiven_getRequest {B} (k : Request.t -> Gen B) :
  (forall q, Q (vq q) -> respectsGiven Q P vq vr (k q)) ->
  respectsGiven Q P vq vr (getRequest ≫= k).
Proof.
  intros Hk st HQ. rewrite bind_run. simpl. apply (Hk (request st) HQ st HQ).
Qed.

Lemma respectsGiven_when (b : bool) (c : Gen unit) :
  (b = true -> respectsGiven Q P vq vr c) ->
  respectsGiven Q P vq vr (when b c).
Proof.
  destruct b; simpl; [auto|].
  intros _. apply respects_weaken, respects_mret.
Qed.

End RespectsGiven.

Section ControllerMore.

Import Controller.

Variable steps : Steps.
Variable registry : Registry.
Variables frameworkReq frameworkRes : JsVal.

Local Abbreviation tryBlock :=
  (tryBlock steps registry frameworkReq frameworkRes).
Local Abbreviation catchBlock := (catchBlock steps).
Local Abbreviation afterTry :=
  (afterTry steps registry frameworkReq frameworkRes).
Local Abbreviation handle := (handle steps registry frameworkReq frameworkRes).
Local Abbreviation runTry := (runTry steps registry frameworkReq frameworkRes).

(** What follows the [try] block only adds render transforms to the log. *)
Lemma afterTry_only_renders (P : Event -> Prop) :
  (forall toTransform, P (EvApplyTransform "beforeRender" toTransform)) ->
  respects P (fun _ => tt) (fun _ => tt) afterTry.
Proof.
  intros HP. unfold Controller.afterTry, errorBranch, renderBranch.
  respects_steps;
    repeat match goal with
    | |- respects _ _ _ (if ?b then _ else _) => destruct b
    end;
    respects_steps; try reflexivity; apply HP.
Qed.

(** So a property of every call of the [try] block that render transforms
    have too is a property of every call of [handle]. *)
Lemma handle_events (P : Event -> Prop) (req : Request.t) :
  (forall toTransform, P (EvApplyTransform "beforeRender" toTransform)) ->
  Forall P (log (snd (runTry req))) ->
  Forall P (snd (handle req)).
Proof.
  intros HP Htry.
  unfold Controller.handle, Controller.runTry in *.
  rewrite bind_run. unfold try_catch.
  destruct (tryBlock (initial req)) as [[[]|e|] st1]; simpl in *.
  - pose proof (afterTry_only_renders P HP st1) as (_ & _ & evs & Hl & Hevs).
    destruct (afterTry st1) as [o st2]; simpl in *.
    rewrite Hl. apply Forall_app. split; assumption.
  - rewrite catchBlock_runs.
    match goal with
    | |- context [afterTry ?st] =>
        pose proof (afterTry_only_renders P HP st)
          as (_ & _ & evs & Hl & Hevs);
        destruct (afterTry st) as [o st2]; simpl in *
    end.
    rewrite Hl. apply Forall_app. split; assumption.
  - exact Htry.
Qed.

(** From a property of the [try] block given the request, to all of
    [handle]. *)
Lemma handle_events_given {Xq : Type} (Q : Xq -> Prop) (P : Event -> Prop)
    (vq : Request.t -> Xq) (req : Request.t) :
  respectsGiven Q P vq (fun _ => tt) tryBlock ->
  (forall toTransform, P (EvApplyTransform "beforeRender" toTransform)) ->
  Q (vq req) ->
  Forall P (snd (handle req)).
Proof.
  intros Htry HP HQ. apply handle_events; [exact HP|].
  destruct (Htry (initial req) HQ) as (_ & _ & evs & Hl & Hevs).
  unfold Controller.runTry. rewrite Hl. exact Hevs.
Qed.

(** Splits a disjunction of event equations and refutes each. *)
Ltac not_that_event :=
  let H := fresh in
  intros H;
  repeat match type of H with
         | _ \/ _ => destruct H as [H|H]
         | exists _, _ => destruct H as [? H]
         end;
  discriminate.

Ltac under_ifs :=
  repeat match goal with
         | |- respects _ _ _ (if ?b then _ else _) => destruct b
         end.

(** A request without a body goes through none of the body stage: neither
    the content-type and document validation, nor the parsing, nor the
    resource validation, nor the [beforeSave] transform is called. *)
Theorem handle_without_body_skips_the_body_stage (req : Request.t) :
  Request.hasBody req = false ->
  Forall (fun ev => ~ isParse ev) (snd (handle req)).
Proof.
  intros Hbody.
  apply (handle_events_given (fun b => b = false) _ Request.hasBody);
    [| intros p; unfold isParse; not_that_event | exact Hbody].
  unfold Controller.tryBlock.
  apply respectsGiven_bind; [|intros _].
  { apply respects_weaken. unfold validateAndNegotiate.
    respects_steps; try reflexivity; unfold isParse; not_that_event. }
  apply respectsGiven_bind; [|intros _].
  { unfold parseBody. apply respectsGiven_getRequest. intros q Hq.
    rewrite Hq. apply respects_weaken, respects_mret. }
  apply respects_weaken. unfold resolveLabel, beforeDelete, dispatch.
  respects_steps; under_ifs; respects_steps; try reflexivity;
    unfold isParse; not_that_event.
Qed.

(** A request about a relationship has its resources never validated
    against the registry.  Its body is still validated, parsed and
    transformed: when the checks, the negotiation and those steps succeed,
    the first seven calls of [handle] are the three checks, the content-type
    and document validation, the parsing of [body.data] as a relationship
    and the [beforeSave] transform of what was parsed, and the request's
    primary is what the transform gave. *)
Theorem handle_on_relationship_skips_resource_validation (req : Request.t) :
  Request.aboutRelationship req = true ->
  Forall (fun ev => ev <> EvValidateRequestResources) (snd (handle req))
  /\ forall (contentType : string) (data : JsVal)
            (parsedPrimary transformed : Primary),
       checkMethod steps req = Fulfilled tt ->
       checkBodyExistence steps req = Fulfilled tt ->
       negotiateContentType steps (Request.accepts req) [jsonApiType]
         = Fulfilled contentType ->
       hasType registry (Request.type req) = true ->
       Request.hasBody req = true ->
       validateContentType steps req supportedExt = Fulfilled tt ->
       validateRequestDocument steps (Request.body req) = Fulfilled tt ->
       getProp (Request.body req) "data" = Returns data ->
       parseRequestPrimary steps data true = Fulfilled parsedPrimary ->
       applyTransform steps parsedPrimary "beforeSave" registry frameworkReq
         frameworkRes = Fulfilled transformed ->
       Request.primary (request (snd (runTry req))) = transformed
       /\ exists later,
            snd (handle req) =
              ([EvCheckMethod; EvCheckBodyExistence; EvNegotiateContentType;
                EvValidateContentType; EvValidateRequestDocument;
                EvParseRequestPrimary;
                EvApplyTransform "beforeSave" parsedPrimary] ++ later)%list.
Proof.
  intros Hrel. split.
  { apply (handle_events_given (fun b => b = true) _
             Request.aboutRelationship);
      [| intros p; discriminate | exact Hrel].
    unfold Controller.tryBlock.
    apply respectsGiven_bind; [|intros _].
    { apply respects_weaken. unfold validateAndNegotiate.
      respects_steps; try reflexivity; discriminate. }
    apply respectsGiven_bind; [|intros _].
    { unfold parseBody. apply respectsGiven_getRequest. intros q Hq.
      rewrite Hq. simpl. apply respects_weaken.
      respects_steps; try reflexivity; discriminate. }
    apply respects_weaken. unfold resolveLabel, beforeDelete, dispatch.
    respects_steps; under_ifs; respects_steps; try reflexivity;
      discriminate. }
  intros contentType data parsedPrimary transformed
    Hm Hb Hn Ht Hbody Hvc Hvd Hdata Hparse Hsave.
  assert (Hlater : respects (fun _ => True) Request.primary (fun _ => tt)
                     (resolveLabel registry frameworkReq;;
                      beforeDelete steps registry frameworkReq frameworkRes;;
                      dispatch steps registry)).
  { unfold resolveLabel, beforeDelete, dispatch.
    respects_steps; under_ifs; respects_steps; try reflexivity; exact I. }
  assert (Hrun : tryBlock (initial req) =
            (resolveLabel registry frameworkReq;;
             beforeDelete steps registry frameworkReq frameworkRes;;
             dispatch steps registry)
              (mkState (Request.with_primary transformed req)
                 (Response.with_header "vary" "Accept"
                    (Response.with_contentType contentType new_Response))
                 [EvCheckMethod; EvCheckBodyExistence;
                  EvNegotiateContentType; EvValidateContentType;
                  EvValidateRequestDocument; EvParseRequestPrimary;
                  EvApplyTransform "beforeSave" parsedPrimary])).
  { unfold Controller.tryBlock, validateAndNegotiate, parseBody.
    rewrite bind_run.
    unfold mbind at 1 2 3 4 5 6 7. unfold Gen_bind at 1 2 3 4 5 6 7.
    unfold getRequest, yield, setResponse, when, throw. simpl.
    rewrite Hm, Hb, Hn, Ht. simpl.
    rewrite bind_run.
    unfold mbind at 1. unfold Gen_bind at 1. simpl.
    rewrite Hbody, Hrel. simpl.
    unfold mbind at 1 2 3 4 5 6. unfold Gen_bind at 1 2 3 4 5 6.
    unfold yield, call, setRequest, when, throw. simpl.
    rewrite Hvc, Hvd, Hdata. simpl. rewrite Hparse. simpl.
    rewrite Hsave. reflexivity. }
  match type of Hrun with
  | _ = ?c ?st0 =>
      pose proof (Hlater st0) as (Hp & _ & evs & Hl & _)
  end.
  simpl in Hp, Hl. rewrite <- Hrun in Hp, Hl.
  split; [exact Hp|].
  destruct (handle_log steps registry frameworkReq frameworkRes req)
    as (after & Hlog & _).
  unfold Controller.runTry in *. rewrite Hlog, Hl.
  exists (evs ++ after)%list. reflexivity.
Qed.

(** Labels are resolved only where they may be: for a request without ids,
    or one that does not allow labels, [labelToIds] is never called and the
    [try] block leaves the request's ids as they were. *)
Theorem handle_resolves_no_label_unless_allowed (req : Request.t) :
  truthy (Request.idOrIds req) && Request.allowLabel req = false ->
  Forall (fun ev => ~ isLabel ev) (snd (handle req))
  /\ Request.idOrIds (request (snd (runTry req))) = Request.idOrIds req.
Proof.
  intros Hno.
  assert (Htry : respectsGiven
                   (fun v : JsVal * bool => truthy (fst v) && snd v = false)
                   (fun ev => ~ isLabel ev)
                   (fun q => (Request.idOrIds q, Request.allowLabel q))
                   (fun _ => tt) tryBlock).
  { unfold Controller.tryBlock.
    apply respectsGiven_bind; [|intros _].
    { apply respects_weaken. unfold validateAndNegotiate.
      respects_steps; try reflexivity; unfold isLabel; not_that_event. }
    apply respectsGiven_bind; [|intros _].
    { apply respects_weaken. unfold parseBody.
      respects_steps; try reflexivity; unfold isLabel; not_that_event. }
    apply respectsGiven_bind; [|intros _].
    { unfold resolveLabel. apply respectsGiven_getRequest. intros q Hq.
      simpl in Hq. rewrite Hq. apply respects_weaken, respects_mret. }
    apply respects_weaken. unfold beforeDelete, dispatch.
    respects_steps; under_ifs; respects_steps; try reflexivity;
      unfold isLabel; not_that_event. }
  split.
  - apply (handle_events_given _ _ _ req Htry);
      [intros p; unfold isLabel; not_that_event | exact Hno].
  - destruct (Htry (initial req) Hno) as (Hq & _).
    unfold Controller.runTry. simpl in Hq. congruence.
Qed.

(** The [beforeDelete] transform belongs to the [delete] method: no other
    request calls it. *)
Theorem handle_transforms_deletions_only (req : Request.t) :
  Request.method req <> "delete" ->
  Forall (fun ev => ~ isBeforeDelete ev) (snd (handle req)).
Proof.
  intros Hmethod.
  apply (handle_events_given (fun m => String.eqb m "delete" = false) _
           Request.method);
    [| intros p; unfold isBeforeDelete; not_that_event
     | apply String.eqb_neq; exact Hmethod].
  unfold Controller.tryBlock.
  apply respectsGiven_bind; [|intros _].
  { apply respects_weaken. unfold validateAndNegotiate.
    respects_steps; try reflexivity; unfold isBeforeDelete; not_that_event. }
  apply respectsGiven_bind; [|intros _].
  { apply respects_weaken. unfold parseBody.
    respects_steps; try reflexivity; unfold isBeforeDelete; not_that_event. }
  apply respectsGiven_bind; [|intros _].
  { apply respects_weaken. unfold resolveLabel.
    respects_steps; try reflexivity; unfold isBeforeDelete; not_that_event. }
  apply respectsGiven_bind; [|intros _].
  { unfold beforeDelete. apply respectsGiven_getRequest. intros q Hq.
    rewrite Hq. apply respects_weaken, respects_mret. }
  apply respects_weaken. unfold dispatch.
  respects_steps; under_ifs; respects_steps; try reflexivity;
    unfold isBeforeDelete; not_that_event.
Qed.

(** *** Failures *)

(** A failure of the render transforms is the only one that is not caught. *)
Lemma afterTry_raise (st st' : State) (e : Thrown) :
  afterTry st = (Raise e, st') ->
  exists before toTransform,
    log st' = (before ++ [EvApplyTransform "beforeRender" toTransform])%list
    /\ applyTransform steps toTransform "beforeRender" registry frameworkReq
         frameworkRes = Rejected e.
Proof.
  unfold Controller.afterTry. rewrite bind_run. simpl.
  destruct (negb (length (Response.errors (response st)) =? 0)%nat).
  - unfold errorBranch, mbind, Gen_bind, setResponse, getResponse. simpl.
    discriminate.
  - unfold renderBranch, mbind, Gen_bind, yield, setResponse, getResponse,
      getRequest, when. simpl.
    destruct (applyTransform steps (Response.primary (response st))
                "beforeRender" registry frameworkReq frameworkRes)
      as [p1|e1|] eqn:H1; simpl; try discriminate.
    + destruct (applyTransform steps (Response.included (response st))
                  "beforeRender" registry frameworkReq frameworkRes)
        as [p2|e2|] eqn:H2; simpl; try discriminate.
      * destruct (bool_decide (Response.status (response st)
                                 = Some (Num 204))); discriminate.
      * intros H. injection H as -> <-. simpl. eauto.
    + intros H. injection H as -> <-. simpl. eauto.
Qed.

(** Failure containment: whatever a stage of the [try] block throws or
    rejects with, [handle] does not reject.  When [handle] rejects, the last
    call it made was a [beforeRender] transform, and the rejection is that
    transform's. *)
Theorem handle_rejects_only_from_render (req : Request.t) (e : Thrown)
    (evs : list Event) :
  handle req = (Raise e, evs) ->
  exists before toTransform,
    evs = (before ++ [EvApplyTransform "beforeRender" toTransform])%list
    /\ applyTransform steps toTransform "beforeRender" registry frameworkReq
         frameworkRes = Rejected e.
Proof.
  unfold Controller.handle. rewrite bind_run.
  destruct (try_catch_cases steps registry frameworkReq frameworkRes
              (initial req))
    as [(st & _ & ->) | [(e1 & st & _ & ->) | (st & _ & ->)]].
  - destruct (afterTry st) as [o st2] eqn:Hafter.
    intros H. injection H as -> <-. eapply afterTry_raise. exact Hafter.
  - rewrite catchBlock_runs.
    match goal with
    | |- context [afterTry ?s] => destruct (afterTry s) as [o st2] eqn:Hafter
    end.
    intros H. injection H as -> <-.
    apply afterTry_raise in Hafter. simpl in Hafter. exact Hafter.
  - discriminate.
Qed.

(** What [handle] answers when the [try] block throws into a response that
    has no error yet. *)
Lemma handle_caught (req : Request.t) (e : Thrown) (st : State) :
  tryBlock (initial req) = (Raise e, st) ->
  Response.errors (response st) = [] ->
  toArray e <> [] ->
  exists r,
    handle req = (Done r, log st)
    /\ Response.errors r = List.map (fromError steps) (toArray e)
    /\ Response.status r = pickStatus (List.map status (Response.errors r))
    /\ Response.body r = Some (errorDocument (Response.errors r))
    /\ Response.contentType r =
         Some (if bool_decide (Response.contentType (response st)
                                 = Some "application/json")
               then "application/json" else jsonApiType)
    /\ Response.headers r = Response.headers (response st)
    /\ Response.primary r = Response.primary (response st).
Proof.
  intros Hrun Hnone Hsome.
  unfold Controller.handle. rewrite bind_run. unfold try_catch.
  rewrite Hrun, catchBlock_runs.
  unfold Controller.afterTry. rewrite bind_run. simpl.
  destruct (toArray e) as [|e1 es] eqn:Harr; [congruence|].
  destruct (response st) as [ct hs stt pr inc errs bd] eqn:Hresp.
  simpl in Hnone. subst errs. simpl.
  unfold errorBranch, mbind, Gen_bind, setResponse, getResponse. simpl.
  eexists. split; [reflexivity|].
  destruct (bool_decide (ct = Some "application/json")) eqn:Hct;
    simpl; repeat split.
  apply bool_decide_eq_true in Hct. exact Hct.
Qed.

(** The first failure is the response: when the method check, the body
    check or the negotiation rejects, no later stage is called, and
    [handle] resolves with the thrown errors, converted in order, the
    status picked from them, the JSON:API content type, the error document
    as body, and nothing else set. *)
Theorem handle_stops_at_the_first_failure (req : Request.t) (e : Thrown)
    (evs : list Event) :
  toArray e <> [] ->
  (checkMethod steps req = Rejected e /\ evs = [EvCheckMethod])
  \/ (checkMethod steps req = Fulfilled tt
      /\ checkBodyExistence steps req = Rejected e
      /\ evs = [EvCheckMethod; EvCheckBodyExistence])
  \/ (checkMethod steps req = Fulfilled tt
      /\ checkBodyExistence steps req = Fulfilled tt
      /\ negotiateContentType steps (Request.accepts req) [jsonApiType]
           = Rejected e
      /\ evs = [EvCheckMethod; EvCheckBodyExistence;
                EvNegotiateContentType]) ->
  exists r,
    handle req = (Done r, evs)
    /\ Response.errors r = List.map (fromError steps) (toArray e)
    /\ Response.status r = pickStatus (List.map status (Response.errors r))
    /\ Response.body r = Some (errorDocument (Response.errors r))
    /\ Response.contentType r = Some jsonApiType
    /\ Response.headers r = ∅
    /\ Response.primary r = PUndefined.
Proof.
  intros Hsome Hstage.
  assert (Hrun : tryBlock (initial req)
                 = (Raise e, mkState req new_Response evs)).
  { unfold Controller.tryBlock, validateAndNegotiate.
    rewrite bind_run. unfold mbind, Gen_bind, getRequest, yield. simpl.
    destruct Hstage as [(-> & ->) | [(-> & -> & ->) | (-> & -> & -> & ->)]];
      reflexivity. }
  destruct (handle_caught req e _ Hrun eq_refl Hsome)
    as (r & Hr & He & Hs & Hb & Hc & Hh & Hp).
  exists r. simpl in *. auto 10.
Qed.

(** A type that is not registered: once the checks and the negotiation have
    passed, the request is answered with the one error that [handle]
    throws itself (status 404, "<type> is not a valid type."), under the
    [Vary] header, in the negotiated type if that is [application/json], and
    no later stage is called. *)
Theorem handle_unregistered_type (req : Request.t) (contentType : string) :
  checkMethod steps req = Fulfilled tt ->
  checkBodyExistence steps req = Fulfilled tt ->
  negotiateContentType steps (Request.accepts req) [jsonApiType]
    = Fulfilled contentType ->
  hasType registry (Request.type req) = false ->
  exists r,
    handle req = (Done r, [EvCheckMethod; EvCheckBodyExistence;
                           EvNegotiateContentType])
    /\ Response.errors r =
         [fromError steps
            (AnAPIError
               (mkAPIError (Num 404) None
                  (Some (Request.type req +:+ " is not a valid type."))
                  None))]
    /\ Response.headers r !! "vary" = Some "Accept"
    /\ Response.contentType r =
         Some (if bool_decide (contentType = "application/json")
               then "application/json" else jsonApiType)
    /\ Response.body r = Some (errorDocument (Response.errors r)).
Proof.
  intros Hm Hb Hn Ht.
  assert (Hrun : tryBlock (initial req)
                 = (Raise (Single (AnAPIError
                             (mkAPIError (Num 404) None
                                (Some (Request.type req
                                       +:+ " is not a valid type.")) None))),
                    (mkState req
                         (Response.with_header "vary" "Accept"
                            (Response.with_contentType contentType
                               new_Response))
                         [EvCheckMethod; EvCheckBodyExistence;
                          EvNegotiateContentType]))).
  { unfold Controller.tryBlock, validateAndNegotiate.
    rewrite bind_run.
    unfold mbind, Gen_bind, getRequest, yield, setResponse, when, throw.
    simpl. rewrite Hm, Hb, Hn, Ht. reflexivity. }
  destruct (handle_caught req _ _ Hrun eq_refl ltac:(discriminate))
    as (r & Hr & He & Hs & Hbody & Hc & Hh & Hp).
  exists r. simpl in *. repeat split; try assumption.
  - rewrite Hh. reflexivity.
  - rewrite Hc. f_equal.
    destruct (bool_decide (contentType = "application/json")) eqn:H1.
    + apply bool_decide_eq_true in H1. subst. reflexivity.
    + apply bool_decide_eq_false in H1.
      rewrite bool_decide_eq_false_2; [reflexivity | congruence].
Qed.

(** Aggregation: when the query steps leave the error list alone, a [try]
    block that throws yields a response whose errors are exactly the thrown
    ones, one for one and in order, and [handle] makes no further call. *)
Theorem handle_aggregates_what_was_thrown (req : Request.t) (e : Thrown)
    (st : State) :
  querySteps keepsNegotiationAndErrors steps ->
  runTry req = (Raise e, st) ->
  toArray e <> [] ->
  exists r,
    handle req = (Done r, log st)
    /\ Response.errors r = List.map (fromError steps) (toArray e)
    /\ length (Response.errors r) = length (toArray e).
Proof.
  intros Hframe Hrun Hsome. unfold Controller.runTry in Hrun.
  pose proof (tryBlock_contentType steps registry frameworkReq frameworkRes
                req _ _ Hframe Hrun ltac:(discriminate)) as [_ Hnone].
  destruct (handle_caught req e st Hrun Hnone Hsome) as (r & Hr & He & _).
  exists r. split; [exact Hr|]. split; [exact He|].
  rewrite He. apply length_map.
Qed.

(** *** Queries *)

(** The [try] block is its first four stages followed by the dispatch. *)
Lemma tryBlock_front (st : State) :
  tryBlock st =
    ((validateAndNegotiate steps registry;;
      parseBody steps registry frameworkReq frameworkRes;;
      resolveLabel registry frameworkReq;;
      beforeDelete steps registry frameworkReq frameworkRes)
     ≫= fun _ => dispatch steps registry) st.
Proof.
  unfold Controller.tryBlock. rewrite !bind_run.
  destruct (validateAndNegotiate steps registry st) as [[[]|e|] stA];
    [|reflexivity..].
  rewrite !bind_run.
  destruct (parseBody steps registry frameworkReq frameworkRes stA)
    as [[[]|e|] stB]; [|reflexivity..].
  rewrite !bind_run.
  destruct (resolveLabel registry frameworkReq stB) as [[[]|e|] stC];
    [|reflexivity..].
  rewrite !bind_run.
  destruct (beforeDelete steps registry frameworkReq frameworkRes stC)
    as [[[]|e|] stD]; reflexivity.
Qed.

Lemma front_no_query :
  respects (fun ev => ~ isQuery ev) Request.method (fun _ => tt)
    (validateAndNegotiate steps registry;;
     parseBody steps registry frameworkReq frameworkRes;;
     resolveLabel registry frameworkReq;;
     beforeDelete steps registry frameworkReq frameworkRes).
Proof.
  unfold validateAndNegotiate, parseBody, resolveLabel, beforeDelete.
  respects_steps; under_ifs; respects_steps; try reflexivity;
    unfold isQuery; not_that_event.
Qed.

(** The dispatch calls one query step, the one of the request's method, or
    none. *)
Lemma dispatch_log (st : State) :
  request (snd (dispatch steps registry st)) = request st
  /\ (log (snd (dispatch steps registry st)) = log st
      \/ (log (snd (dispatch steps registry st))
            = (log st ++ [EvDoQuery (Request.method (request st))])%list
          /\ hasQueryStep (Request.method (request st))
          /\ Response.primary (response st) = PUndefined)).
Proof.
  unfold dispatch, hasQueryStep, mbind, Gen_bind, getRequest, getResponse,
    when, yieldQuery, mret, Gen_ret.
  simpl.
  destruct (Response.primary (response st)); simpl; auto.
  repeat match goal with
         | |- context [String.eqb ?a ?b] =>
             destruct (String.eqb_spec a b) as [->|?]
         end;
    repeat match goal with
           | |- context [let '(_, _) := ?x in _] => destruct x
           end;
    simpl; auto 10.
Qed.

(** With no primary resources yet and one of the four methods, the
    dispatch does call the query step. *)
Lemma dispatch_queries (st : State) :
  Response.primary (response st) = PUndefined ->
  hasQueryStep (Request.method (request st)) ->
  log (snd (dispatch steps registry st))
    = (log st ++ [EvDoQuery (Request.method (request st))])%list.
Proof.
  intros Hp Hverb.
  unfold dispatch, mbind, Gen_bind, getRequest, getResponse, when,
    yieldQuery.
  simpl. rewrite Hp.
  destruct Hverb as [-> | [-> | [-> | ->]]]; simpl;
    match goal with
    | |- context [let '(_, _) := ?x in _] => destruct x
    end; reflexivity.
Qed.

(** At most one query step per request, and it is the one of the request's
    method: the calls of [handle] are calls that are not queries, then
    possibly the one query step, then calls that are not queries. *)
Theorem handle_queries_at_most_once (req : Request.t) :
  exists before query after,
    snd (handle req) = (before ++ query ++ after)%list
    /\ Forall (fun ev => ~ isQuery ev) before
    /\ Forall (fun ev => ~ isQuery ev) after
    /\ (query = []
        \/ (query = [EvDoQuery (Request.method req)]
            /\ hasQueryStep (Request.method req))).
Proof.
  destruct (handle_log steps registry frameworkReq frameworkRes req)
    as (after & -> & Hafter).
  unfold Controller.runTry. rewrite tryBlock_front, bind_run.
  pose proof (front_no_query (initial req)) as (Hm & _ & before & Hl & Hb).
  simpl in Hm, Hl.
  match type of Hl with
  | log (snd (?c ?s)) = _ => destruct (c s) as [[[]|e|] st1]
  end; simpl in *.
  - destruct (dispatch_log st1) as (_ & [Hd | (Hd & Hq & _)]); rewrite Hd, Hl.
    + exists before, [], after. simpl. auto.
    + exists before, [EvDoQuery (Request.method req)], after.
      rewrite Hm in *. rewrite <- app_assoc. auto 10.
  - rewrite Hl. exists before, [], after. simpl. auto.
  - rewrite Hl. exists before, [], after. simpl. auto.
Qed.

(** Where label resolution ends normally. *)
Lemma resolveLabel_done (st st' : State) :
  resolveLabel registry frameworkReq st = (Done tt, st') ->
  labelFields (request st') = labelFields (request st)
  /\ response st' = response st
  \/ truthy (Request.idOrIds (request st)) && Request.allowLabel (request st)
       = true
     /\ exists mapped,
          labelToIds (Request.type (request st))
            (Request.idOrIds (request st)) registry frameworkReq
            = Fulfilled mapped
          /\ Request.method (request st') = Request.method (request st)
          /\ (mapsToNothing mapped = true
              \/ response st' = response st).
Proof.
  unfold resolveLabel. rewrite bind_run. simpl.
  destruct (truthy (Request.idOrIds (request st))
            && Request.allowLabel (request st)) eqn:Hcond; simpl.
  - unfold mbind, Gen_bind, yield, setRequest, setResponse, when. simpl.
    destruct (labelToIds (Request.type (request st))
                (Request.idOrIds (request st)) registry frameworkReq)
      as [mapped|e|]; simpl; try discriminate.
    destruct (mapsToNothing mapped) eqn:Hnothing; simpl;
      intros H; injection H as <-; right; (split; [reflexivity|]);
      exists mapped; simpl; auto.
  - intros H. injection H as <-. auto.
Qed.

(** A [try] block that runs to its end has either called the query step of
    the request's method, or resolved the request's label to nothing (null,
    undefined or an empty array): for the four methods there is no third
    way to leave it. *)
Theorem tryBlock_queries_or_short_circuits (req : Request.t) (st : State) :
  hasQueryStep (Request.method req) ->
  runTry req = (Done tt, st) ->
  In (EvDoQuery (Request.method req)) (log st)
  \/ (truthy (Request.idOrIds req) && Request.allowLabel req = true
      /\ exists mapped,
           labelToIds (Request.type req) (Request.idOrIds req) registry
             frameworkReq = Fulfilled mapped
           /\ mapsToNothing mapped = true).
Proof.
  intros Hverb. unfold Controller.runTry, Controller.tryBlock.
  rewrite bind_run.
  pose proof (validateAndNegotiate_quiet steps registry (initial req))
    as (HqA & HrA & _).
  destruct (validateAndNegotiate steps registry (initial req))
    as [[[]|e|] stA]; try discriminate. simpl in HqA, HrA.
  rewrite bind_run.
  pose proof (parseBody_quiet steps registry frameworkReq frameworkRes stA)
    as (HqB & HrB & _).
  destruct (parseBody steps registry frameworkReq frameworkRes stA)
    as [[[]|e|] stB]; try discriminate. simpl in HqB, HrB.
  rewrite HqA in HqB. rewrite HrA in HrB. unfold labelFields in HqB.
  injection HqB as Hmethod Htype Hids Hflag.
  rewrite bind_run.
  destruct (resolveLabel registry frameworkReq stB) as [[[]|e|] stC] eqn:HC;
    try discriminate.
  rewrite bind_run.
  pose proof (beforeDelete_quiet steps registry frameworkReq frameworkRes stC)
    as (HqD & HrD & _).
  destruct (beforeDelete steps registry frameworkReq frameworkRes stC)
    as [[[]|e|] stD]; try discriminate. simpl in HqD, HrD.
  intros Hrun.
  assert (Hkeep : Request.method (request stC) = Request.method req
                  /\ Response.primary (response stC) = PUndefined
                  \/ truthy (Request.idOrIds req) && Request.allowLabel req
                       = true
                     /\ exists mapped,
                          labelToIds (Request.type req) (Request.idOrIds req)
                            registry frameworkReq = Fulfilled mapped
                          /\ mapsToNothing mapped = true).
  { apply resolveLabel_done in HC
      as [(Hf & Hr) | (Hcond & mapped & Hmap & Hm & Hcase)].
    - left. unfold labelFields in Hf. injection Hf as Hm _ _ _.
      rewrite Hm, Hr. auto.
    - rewrite Htype, Hids in Hmap. rewrite Hids, Hflag in Hcond.
      destruct Hcase as [Hnothing | Hr]; [right; eauto|].
      left. rewrite Hm, Hr. auto. }
  destruct Hkeep as [(Hm & Hp) | Hshort]; [|right; exact Hshort].
  left. rewrite <- HqD in Hm. rewrite <- HrD in Hp.
  rewrite <- Hm in Hverb.
  pose proof (dispatch_queries stD Hp Hverb) as Hl.
  rewrite Hrun in Hl. simpl in Hl. rewrite Hl, Hm.
  apply in_or_app. right. left. reflexivity.
Qed.

(** *** What the stages leave on the response *)

(** An aspect of the response that the query steps keep, and that does not
    depend on the primary resources, is kept by every stage after the
    negotiation. *)
Lemma later_stages_keep_view {X : Type} (f : Response.t -> X) :
  (forall p r, f (Response.with_primary p r) = f r) ->
  querySteps (keeps f) steps ->
  respects (fun _ => True) (fun _ => tt) f
    (parseBody steps registry frameworkReq frameworkRes;;
     resolveLabel registry frameworkReq;;
     beforeDelete steps registry frameworkReq frameworkRes;;
     dispatch steps registry).
Proof.
  intros Hprimary (Hget & Hpost & Hpatch & Hdelete).
  unfold parseBody, resolveLabel, beforeDelete, dispatch.
  respects_steps; under_ifs; respects_steps;
    try reflexivity; try exact I; try apply Hprimary;
    first [apply Hget | apply Hpost | apply Hpatch | apply Hdelete].
Qed.

(** The [Vary] header is there as soon as negotiation has succeeded. *)
Lemma validateAndNegotiate_vary (req : Request.t) (contentType : string) :
  negotiated steps req = Some contentType ->
  exists o st,
    validateAndNegotiate steps registry (initial req) = (o, st)
    /\ o <> Stall
    /\ Response.headers (response st) !! "vary" = Some "Accept".
Proof.
  unfold negotiated, validateAndNegotiate, mbind, Gen_bind, getRequest,
    yield, setResponse, when, throw. simpl.
  destruct (checkMethod steps req) as [[]| |]; simpl; try discriminate.
  destruct (checkBodyExistence steps req) as [[]| |]; simpl;
    try discriminate.
  destruct (negotiateContentType steps (Request.accepts req) [jsonApiType]);
    simpl; try discriminate.
  intros _.
  destruct (hasType registry (Request.type req)); simpl;
    eexists _, _; (split; [reflexivity|]); (split; [discriminate|]);
    reflexivity.
Qed.

(** [Vary: Accept] is on every response that [handle] completes after a
    successful negotiation, error response or not, provided the query steps
    leave the headers that are there. *)
Theorem handle_varies_on_accept_once_negotiated (req : Request.t)
    (contentType : string) (r : Response.t) (evs : list Event) :
  querySteps (keeps (fun response => Response.headers response !! "vary"))
    steps ->
  negotiated steps req = Some contentType ->
  handle req = (Done r, evs) ->
  Response.headers r !! "vary" = Some "Accept".
Proof.
  intros Hframe Hneg Hrun.
  assert (Htry : forall o st, tryBlock (initial req) = (o, st) ->
                   Response.headers (response st) !! "vary"
                     = Some "Accept").
  { intros o st. unfold Controller.tryBlock. rewrite bind_run.
    destruct (validateAndNegotiate_vary req contentType Hneg)
      as (oA & stA & -> & _ & Hvary).
    destruct oA as [[]|e|].
    - pose proof (later_stages_keep_view
                    (fun response => Response.headers response !! "vary")
                    ltac:(reflexivity) Hframe stA) as (_ & Hkeep & _).
      intros H. rewrite H in Hkeep. simpl in Hkeep. congruence.
    - intros H. injection H as _ <-. exact Hvary.
    - intros H. injection H as _ <-. exact Hvary. }
  apply handle_done in Hrun as (st1 & st2 & Hcatch & Hafter & _).
  assert (H1 : Response.headers (response st1) !! "vary" = Some "Accept").
  { destruct (try_catch_cases steps registry frameworkReq frameworkRes
                (initial req))
      as [(st & Hb & Hs) | [(e & st & Hb & Hs) | (st & _ & Hs)]];
      rewrite Hs in Hcatch.
    - injection Hcatch as <-. eapply Htry. exact Hb.
    - rewrite catchBlock_runs in Hcatch. injection Hcatch as <-. simpl.
      apply Htry in Hb.
      destruct (bool_decide (Response.contentType (response st)
                               = Some "application/json")); exact Hb.
    - discriminate. }
  destruct (Response.errors (response st1)) as [|e1 es] eqn:Herr.
  - apply afterTry_render in Hafter as (_ & _ & Hh & _); [|assumption].
    rewrite Hh. exact H1.
  - apply afterTry_errors in Hafter as [-> _]; [|congruence]. exact H1.
Qed.

(** The success path keeps what was negotiated: with query steps that
    leave the content type and the error list alone, a response completed
    after the [try] block ran to its end carries exactly the negotiated
    content type, and no error. *)
Theorem handle_success_content_type (req : Request.t) (st : State)
    (r : Response.t) (evs : list Event) :
  querySteps keepsNegotiationAndErrors steps ->
  runTry req = (Done tt, st) ->
  handle req = (Done r, evs) ->
  Response.errors r = []
  /\ Response.contentType r = negotiated steps req
  /\ negotiated steps req <> None.
Proof.
  intros Hframe Htry Hrun. unfold Controller.runTry in Htry.
  pose proof (tryBlock_contentType steps registry frameworkReq frameworkRes
                req _ _ Hframe Htry ltac:(discriminate)) as [Hct Hnone].
  apply handle_done in Hrun as (st1 & st2 & Hcatch & Hafter & _).
  unfold try_catch in Hcatch. rewrite Htry in Hcatch.
  injection Hcatch as <-.
  apply afterTry_render in Hafter as (He & Hc & _); [|assumption].
  split; [exact He|]. split; [congruence|].
  revert Htry. unfold Controller.tryBlock. rewrite bind_run.
  unfold negotiated, validateAndNegotiate, mbind, Gen_bind, getRequest,
    yield. simpl.
  destruct (checkMethod steps req) as [[]| |]; simpl; try discriminate.
  destruct (checkBodyExistence steps req) as [[]| |]; simpl;
    try discriminate.
  destruct (negotiateContentType steps (Request.accepts req) [jsonApiType]);
    simpl; discriminate.
Qed.

(** A no-content response gets no body: with query steps that leave the
    body alone, a response completed without errors and with status 204 has
    the body of a fresh response, that is none. *)
Theorem handle_builds_no_body_for_204 (req : Request.t) (r : Response.t)
    (evs : list Event) :
  querySteps (keeps Response.body) steps ->
  handle req = (Done r, evs) ->
  Response.errors r = [] ->
  Response.status r = Some (Num 204) ->
  Response.body r = None.
Proof.
  intros Hframe Hrun Hnone H204.
  assert (Hfirst : respects (fun _ => True) (fun _ => tt) Response.body
                     (validateAndNegotiate steps registry)).
  { unfold validateAndNegotiate. respects_steps; try reflexivity; exact I. }
  assert (Htry : respects (fun _ => True) (fun _ => tt) Response.body
                   tryBlock).
  { unfold Controller.tryBlock. apply respects_bind; [exact Hfirst|].
    intros _. apply later_stages_keep_view; [reflexivity | exact Hframe]. }
  assert (Hcatch : forall e,
             respects (fun _ => True) (fun _ => tt) Response.body
               (catchBlock e)).
  { intros e. unfold Controller.catchBlock.
    respects_steps; try reflexivity; exact I. }
  pose proof (respects_try_catch _ _ _ _ _ Htry Hcatch (initial req))
    as (_ & Hbody & _).
  apply handle_done in Hrun as (st1 & st2 & Hrun & Hafter & _).
  rewrite Hrun in Hbody. simpl in Hbody.
  destruct (Response.errors (response st1)) as [|e1 es] eqn:Herr.
  - revert Hafter. unfold Controller.afterTry. rewrite bind_run. simpl.
    rewrite Herr. simpl.
    unfold renderBranch, mbind, Gen_bind, yield, setResponse, getResponse,
      getRequest, when. simpl.
    destruct (applyTransform steps (Response.primary (response st1))
                "beforeRender" registry frameworkReq frameworkRes)
      as [p1| |]; simpl; try discriminate.
    destruct (applyTransform steps (Response.included (response st1))
                "beforeRender" registry frameworkReq frameworkRes)
      as [p2| |]; simpl; try discriminate.
    destruct (bool_decide (Response.status (response st1) = Some (Num 204)))
      eqn:Hs; simpl; intros H; injection H as <- _; simpl in *.
    + exact Hbody.
    + apply bool_decide_eq_false in Hs. contradiction.
  - apply afterTry_errors in Hafter as [-> _]; [|congruence].
    simpl in Hnone. congruence.
Qed.

(** *** [responseFromExternalError] *)

(** Unless the negotiation never settles, [responseFromExternalError]
    resolves, whatever the errors and whatever the [Accept] header: the
    response carries the converted errors in order, the status picked from
    them, the error document, no primary resources, and a content type that
    is the JSON:API one or reads [application/json] in lower case. *)
Theorem responseFromExternalError_always_resolves (errors : Thrown)
    (requestAccepts : JsVal) :
  negotiateContentType steps requestAccepts [jsonApiType] <> Pending ->
  exists r,
    responseFromExternalError steps errors requestAccepts = Fulfilled r
    /\ Response.errors r = List.map (fromError steps) (toArray errors)
    /\ Response.status r = pickStatus (List.map status (Response.errors r))
    /\ Response.body r = Some (errorDocument (Response.errors r))
    /\ Response.primary r = PUndefined
    /\ (Response.contentType r = Some jsonApiType
        \/ exists contentType,
             Response.contentType r = Some contentType
             /\ toLowerCase contentType = "application/json").
Proof.
  intros Hsettled. unfold responseFromExternalError.
  destruct (negotiateContentType steps requestAccepts [jsonApiType])
    as [contentType|e|]; [| |congruence].
  - eexists. split; [reflexivity|]. simpl. repeat split.
    destruct (String.eqb_spec (toLowerCase contentType) "application/json");
      eauto.
  - eexists. split; [reflexivity|]. simpl. repeat split. auto.
Qed.

(** An empty array of errors is not refused: the response has no errors, an
    [undefined] status and the document of an empty error list. *)
Theorem responseFromExternalError_of_no_error (requestAccepts : JsVal)
    (r : Response.t) :
  responseFromExternalError steps (Several []) requestAccepts = Fulfilled r ->
  Response.errors r = []
  /\ Response.status r = None
  /\ Response.body r = Some (errorDocument []).
Proof.
  unfold responseFromExternalError.
  destruct (negotiateContentType steps requestAccepts [jsonApiType]);
    intros H; try discriminate; injection H as <-; repeat split.
Qed.

End ControllerMore.

(** ** The further theorems at work on the scenarios *)

Section MoreWitnesses.

Import Controller Scenarios.

(** The test's find query goes to [find], which answers with the limit it
    was asked for, and to no other operation of the adapter. *)
Lemma runQuery_routes_witness :
  RunQuery.runQuery Fixtures.schoolsRegistry
      (Fixtures.findSchools (Some 3) false)
    = ([(RunQuery.FindQuery, Fixtures.findSchools (Some 3) false)],
       Returns (Fulfilled (JNum 3))).
Proof.
  destruct (runQuery_routes_by_class Fixtures.schoolsRegistry
              (Fixtures.findSchools (Some 3) false)) as (_ & Hroute).
  destruct (Hroute Fixtures.testAdapter Fixtures.echoLimit) as (-> & _).
  - intros cp H. injection H as <-. reflexivity.
  - reflexivity.
  - right. left. split; reflexivity.
  - reflexivity.
Defined.

(** The test's find query, limit 3: the call is [find], and the promise is
    fulfilled with what [find] answered, the limit. *)
Lemma runQuery_result_witness :
  snd (RunQuery.runQuery Fixtures.schoolsRegistry
         (Fixtures.findSchools (Some 3) false))
    = Returns (Fulfilled (JNum 3)).
Proof.
  destruct (runQuery_result_is_the_adapters Fixtures.schoolsRegistry
              (Fixtures.findSchools (Some 3) false) RunQuery.FindQuery
              (Fixtures.findSchools (Some 3) false) eq_refl)
    as (a & m & Ha & Hm & ->).
  vm_compute in Ha. injection Ha as <-.
  vm_compute in Hm. injection Hm as <-.
  reflexivity.
Defined.

Lemma runQuery_within_max_witness :
  fst (RunQuery.runQuery Fixtures.schoolsRegistry
         (Fixtures.findSchools (Some 3) false))
    = [(RunQuery.FindQuery, Fixtures.findSchools (Some 3) false)].
Proof.
  apply (runQuery_allows_limit_within_max Fixtures.schoolsRegistry
           (Fixtures.findSchools (Some 3) false)
           (RunQuery.mkCriteriaPart
              (RunQuery.mkCriteria JUndefined JUndefined (Some 3) None) false)
           3 Fixtures.testAdapter Fixtures.echoLimit);
    [reflexivity | reflexivity
    | intros maxSize H; vm_compute in H; injection H as <-; lia
    | reflexivity | reflexivity].
Defined.

Lemma runQuery_without_operation_witness :
  RunQuery.runQuery Fixtures.schoolsRegistry Fixtures.customQuery
    = ([], Throws RunQuery.UnexpectedQueryType).
Proof.
  apply (runQuery_without_operation Fixtures.schoolsRegistry
           Fixtures.customQuery);
    [intros cp H; discriminate | reflexivity].
Defined.

Lemma runQuery_sane_defaults_witness : 2 <= 4.
Proof.
  apply (runQuery_limit_invariant_for_sane_defaults Fixtures.schoolsRegistry
           (Fixtures.findSchools None false) RunQuery.FindQuery
           (Fixtures.findSchools (Some 2) false)
           (RunQuery.mkCriteriaPart
              (RunQuery.mkCriteria JUndefined JUndefined (Some 2) None) false)
           4 2);
    [ intros ty d m Hd Hm; vm_compute in Hd, Hm;
      injection Hd as <-; injection Hm as <-; lia
    | left; reflexivity | reflexivity | reflexivity | reflexivity
    | reflexivity ].
Defined.

(** [beforeUpdate] is not a property of the hook registry. *)
Lemma triggerHook_unknown_hook_witness :
  TriggerHook.triggerHookFor (JStr "schools") teacher "beforeUpdate" hooks
    JNull JNull
    = Throws (typeError "registry[hook] is not a function").
Proof.
  apply (triggerHook_unknown_hook_name hooks "beforeUpdate"). reflexivity.
Defined.

(** [schools] has no mapper called [42]: it is an id. *)
Lemma labelToIds_passes_witness :
  labelToIds "schools" (JStr "42") schools JNull = Fulfilled (JStr "42").
Proof.
  apply (labelToIds_passes_ids_through schools JNull "schools" "schools"
           (JStr "42") (JObj []) mongoose);
    [reflexivity | reflexivity | reflexivity |].
  right. eexists. split; [reflexivity | vm_compute; reflexivity].
Defined.

Lemma labelToIds_mapped_witness :
  labelToIds "schools" (JStr "nothing") schools JNull = Fulfilled JNull.
Proof.
  apply (labelToIds_resolves_to_mapped schools JNull "schools" "schools"
           (JStr "nothing") (JObj []) JNull mongoose
           ({[ "nobody" := nobody; "nothing" := nothing;
               "throwing" := throwing; "rejecting" := rejecting ]}
              : gmap string LabelMapper)
           nothing);
    [reflexivity | reflexivity | reflexivity | reflexivity
    | vm_compute; reflexivity | right; reflexivity].
Defined.

Lemma labelToIds_rejected_witness :
  adapter schools "schools" = None
  \/ (exists a, adapter schools "schools" = Some a
        /\ (getModelName a "schools"
              = Throws (Single (AnAPIError (apiError 500 "mapper threw")))
            \/ exists name, getModelName a "schools" = Returns name
                 /\ (getModel a name
                       = Throws (Single (AnAPIError
                                           (apiError 500 "mapper threw")))
                     \/ exists model mappers mapper,
                          getModel a name = Returns model
                          /\ labelMappers schools "schools" = Some mappers
                          /\ mappers !! toString (JStr "throwing")
                               = Some mapper
                          /\ mapper model JNull
                               = Throws (Single (AnAPIError
                                           (apiError 500 "mapper threw")))))).
Proof.
  apply (labelToIds_rejected_only_by_throw schools JNull "schools"
           (JStr "throwing")).
  vm_compute. reflexivity.
Defined.

Lemma handle_without_body_witness :
  Forall (fun ev => ~ isParse ev)
    (snd (handle plainSteps schools JNull JNull getSchool)).
Proof.
  apply (handle_without_body_skips_the_body_stage plainSteps schools JNull
           JNull getSchool).
  reflexivity.
Defined.

Lemma handle_relationship_witness :
  Forall (fun ev => ev <> EvValidateRequestResources)
    (snd (handle plainSteps schools JNull JNull patchRelationship))
  /\ exists later,
       snd (handle plainSteps schools JNull JNull patchRelationship) =
         ([EvCheckMethod; EvCheckBodyExistence; EvNegotiateContentType;
           EvValidateContentType; EvValidateRequestDocument;
           EvParseRequestPrimary; EvApplyTransform "beforeSave" PNull]
            ++ later)%list.
Proof.
  destruct (handle_on_relationship_skips_resource_validation plainSteps
              schools JNull JNull patchRelationship eq_refl)
    as (Hnever & Hstill).
  split; [exact Hnever|].
  apply (Hstill jsonApiType (JArr []) PNull PNull); reflexivity.
Defined.

Lemma handle_no_label_witness :
  Forall (fun ev => ~ isLabel ev)
    (snd (handle plainSteps schools JNull JNull getSchool)).
Proof.
  apply (handle_resolves_no_label_unless_allowed plainSteps schools JNull
           JNull getSchool).
  reflexivity.
Defined.

Lemma handle_deletions_only_witness :
  Forall (fun ev => ~ isBeforeDelete ev)
    (snd (handle plainSteps schools JNull JNull getSchool)).
Proof.
  apply (handle_transforms_deletions_only plainSteps schools JNull JNull
           getSchool).
  discriminate.
Defined.

(** With a failing render transform, [GET /schools/1] is rejected. *)
Lemma handle_rejects_witness :
  exists before toTransform,
    [EvCheckMethod; EvCheckBodyExistence; EvNegotiateContentType;
     EvDoQuery "get"; EvApplyTransform "beforeRender" (PCollection [])]
      = (before ++ [EvApplyTransform "beforeRender" toTransform])%list
    /\ applyTransform failingRender toTransform "beforeRender" schools
         JNull JNull = Rejected renderFailure.
Proof.
  apply (handle_rejects_only_from_render failingRender schools JNull JNull
           getSchool renderFailure).
  vm_compute. reflexivity.
Defined.

(** [PUT /schools/1] is answered with the 405 alone. *)
Lemma handle_first_failure_witness :
  exists r,
    handle plainSteps schools JNull JNull putSchool = (Done r, [EvCheckMethod])
    /\ Response.errors r
         = List.map (fromError plainSteps) (toArray methodNotSupported)
    /\ Response.status r = pickStatus (List.map status (Response.errors r))
    /\ Response.body r = Some (errorDocument (Response.errors r))
    /\ Response.contentType r = Some jsonApiType
    /\ Response.headers r = ∅
    /\ Response.primary r = PUndefined.
Proof.
  apply (handle_stops_at_the_first_failure plainSteps schools JNull JNull
           putSchool methodNotSupported [EvCheckMethod]);
    [discriminate | left; split; reflexivity].
Defined.

Lemma handle_unregistered_witness :
  exists r,
    handle plainSteps schools JNull JNull unknownType
      = (Done r, [EvCheckMethod; EvCheckBodyExistence;
                  EvNegotiateContentType])
    /\ Response.errors r =
         [fromError plainSteps
            (AnAPIError
               (mkAPIError (Num 404) None
                  (Some (Request.type unknownType +:+ " is not a valid type."))
                  None))]
    /\ Response.headers r !! "vary" = Some "Accept"
    /\ Response.contentType r =
         Some (if bool_decide ("application/json" = "application/json")
               then "application/json" else jsonApiType)
    /\ Response.body r = Some (errorDocument (Response.errors r)).
Proof.
  apply (handle_unregistered_type plainSteps schools JNull JNull unknownType
           "application/json");
    reflexivity.
Defined.

Lemma handle_aggregates_witness :
  exists r,
    handle plainSteps schools JNull JNull putSchool
      = (Done r, log (snd (runTry plainSteps schools JNull JNull putSchool)))
    /\ Response.errors r
         = List.map (fromError plainSteps) (toArray methodNotSupported)
    /\ length (Response.errors r) = length (toArray methodNotSupported).
Proof.
  apply (handle_aggregates_what_was_thrown plainSteps schools JNull JNull
           putSchool methodNotSupported
           (snd (runTry plainSteps schools JNull JNull putSchool)));
    [repeat split | vm_compute; reflexivity | discriminate].
Defined.

Lemma tryBlock_queries_witness :
  In (EvDoQuery (Request.method getSchool))
    (log (snd (runTry plainSteps schools JNull JNull getSchool)))
  \/ (truthy (Request.idOrIds getSchool) && Request.allowLabel getSchool
        = true
      /\ exists mapped,
           labelToIds (Request.type getSchool) (Request.idOrIds getSchool)
             schools JNull = Fulfilled mapped
           /\ mapsToNothing mapped = true).
Proof.
  apply (tryBlock_queries_or_short_circuits plainSteps schools JNull JNull
           getSchool (snd (runTry plainSteps schools JNull JNull getSchool)));
    [left; reflexivity | vm_compute; reflexivity].
Defined.

Lemma handle_varies_witness :
  Response.headers notFound !! "vary" = Some "Accept".
Proof.
  apply (handle_varies_on_accept_once_negotiated plainSteps schools JNull
           JNull unknownType "application/json" notFound
           [EvCheckMethod; EvCheckBodyExistence; EvNegotiateContentType]);
    [repeat split | reflexivity | vm_compute; reflexivity].
Defined.

Lemma handle_success_witness :
  Response.errors found = []
  /\ Response.contentType found = negotiated plainSteps getSchool
  /\ negotiated plainSteps getSchool <> None.
Proof.
  apply (handle_success_content_type plainSteps schools JNull JNull getSchool
           (snd (runTry plainSteps schools JNull JNull getSchool)) found
           (snd (handle plainSteps schools JNull JNull getSchool)));
    [repeat split | vm_compute; reflexivity | vm_compute; reflexivity].
Defined.

Lemma handle_no_content_witness : Response.body deleted = None.
Proof.
  apply (handle_builds_no_body_for_204 plainSteps schools JNull JNull
           deleteSchool deleted
           (snd (handle plainSteps schools JNull JNull deleteSchool)));
    [repeat split | vm_compute; reflexivity | reflexivity | reflexivity].
Defined.

Lemma responseFromExternalError_witness :
  exists r,
    responseFromExternalError plainSteps renderFailure
      (JStr "application/json") = Fulfilled r
    /\ Response.errors r
         = List.map (fromError plainSteps) (toArray renderFailure)
    /\ Response.status r = pickStatus (List.map status (Response.errors r))
    /\ Response.body r = Some (errorDocument (Response.errors r))
    /\ Response.primary r = PUndefined
    /\ (Response.contentType r = Some jsonApiType
        \/ exists contentType,
             Response.contentType r = Some contentType
             /\ toLowerCase contentType = "application/json").
Proof.
  apply (responseFromExternalError_always_resolves plainSteps renderFailure
           (JStr "application/json")).
  discriminate.
Defined.

Lemma responseFromExternalError_empty_witness :
  Response.status
    (Response.with_contentType jsonApiType
       (Response.with_body (errorDocument [])
          (Response.with_status None (Response.with_errors [] new_Response))))
    = None.
Proof.
  apply (responseFromExternalError_of_no_error plainSteps (JStr "*/*")).
  reflexivity.
Defined.

End MoreWitnesses.
